(** * NexusLink marshalling core: header codec, checksum, marshaller,
      security validator and topology manager.

    Shallow embedding of
    - [nlink_marshal/marshaller.py]  ([MarshalHeader], [PythonMarshaller]),
    - [nlink_marshal/validation.py]  ([SecurityValidator]),
    - [nlink_marshal/topology.py]    ([TopologyManager]),
    together with the parts of Python's [struct] and [hashlib] modules these
    files call.

    Conventions.
    - [bytes] objects are lists of [byte].
    - A Python [int] is a [Z].
    - A Python [float] is represented by its IEEE-754 binary64 bit pattern,
      a [Z] in [0, 2^64): the marshaller only moves floats in and out of
      their eight-byte encoding and never computes with them.
    - A raised exception is a [Raise] result; every method of the marshaller
      also records, in execution order, the helper calls it makes. *)

From Stdlib Require Import ZArith List Lia String.
From coqutil Require Import Byte Word.LittleEndianList.
From stdpp Require Import gmap.

Local Open Scope Z_scope.

(** ** Python values *)

Abbreviation bytes := (list byte).

(** A float, by its binary64 bit pattern. *)
Definition float : Type := Z.

Definition is_float64 (x : float) : Prop := 0 <= x < 2 ^ 64.

(** [len(b)] as a Python int, for a sequence and for a dict. *)
Definition len {A : Type} (l : list A) : Z := Z.of_nat (length l).

Definition len_map {A : Type} (m : gmap Z A) : Z := Z.of_nat (size m).

(** The slice [b[lo:hi]] for non-negative [lo] and [hi]. *)
Definition slice {A : Type} (b : list A) (lo hi : Z) : list A :=
  firstn (Z.to_nat (hi - lo)) (skipn (Z.to_nat lo) b).

(** ** Exceptions and results *)

(** The messages [marshaller.py] passes to [SecurityError]:
    - [TooShort]            "Invalid marshalled data: too short"
    - [InvalidVersion v]    f"Invalid version: {header.version}"
    - [PayloadSizeMismatch] "Payload size mismatch"
    - [ChecksumFailed]      "Checksum validation failed" *)
Inductive security_message : Type :=
  | TooShort
  | InvalidVersion (version : Z)
  | PayloadSizeMismatch
  | ChecksumFailed.

(** The two exception classes that can leave the marshaller:
    its own [SecurityError] and the [struct] module's [struct.error]. *)
Inductive exn : Type :=
  | SecurityError (msg : security_message)
  | struct_error.

Inductive result (A : Type) : Type :=
  | Ok (a : A)
  | Raise (e : exn).
Arguments Ok {A} a.
Arguments Raise {A} e.

(** The error kinds of the design: a malformed, truncated or
    unsupported-version frame is a format error, a digest that does not
    verify is an integrity error.  [struct.error] reports a buffer or an
    argument that does not fit the format string. *)
Inductive error_kind : Type := FormatError | IntegrityError.

Definition kind_of (e : exn) : error_kind :=
  match e with
  | SecurityError ChecksumFailed => IntegrityError
  | SecurityError _ => FormatError
  | struct_error => FormatError
  end.

Definition fails_with {A : Type} (k : error_kind) (r : result A) : Prop :=
  match r with
  | Ok _ => False
  | Raise e => kind_of e = k
  end.

(** ** Traced computations

    A method run yields the helper calls it made, oldest first, and its
    result.  A raised exception stops the run: nothing after it is called. *)

Inductive call : Type :=
  | call_struct_pack_payload      (* struct.pack('<' + 'd' * n, *data) in marshal_data *)
  | call_to_bytes                 (* header.to_bytes() *)
  | call_from_bytes               (* MarshalHeader.from_bytes(marshalled_data) *)
  | call_struct_unpack_payload    (* struct.unpack('<' + 'd' * n, payload) *)
  | call_compute_checksum.        (* self._compute_checksum(data) *)

Definition M (A : Type) : Type := (list call * result A)%type.

Definition ret {A : Type} (a : A) : M A := ([], Ok a).

Definition raise {A : Type} (e : exn) : M A := ([], Raise e).

Definition bind {A B : Type} (m : M A) (f : A -> M B) : M B :=
  match m with
  | (t, Ok a) => let '(t', r) := f a in (t ++ t', r)
  | (t, Raise e) => (t, Raise e)
  end.

(** Run a helper and log the call. *)
Definition invoke {A : Type} (c : call) (r : result A) : M A := ([c], r).

Definition trace {A : Type} (m : M A) : list call := fst m.
Definition outcome {A : Type} (m : M A) : result A := snd m.

Declare Scope py_scope.
Delimit Scope py_scope with py.
Notation "x <- m ;; k" := (bind m (fun x => k))
  (at level 20, m at level 99, k at level 200) : py_scope.
Notation "'raise_if' c 'then' e ;; k" :=
  (if c then raise e else k)
  (at level 20, c at level 99, e at level 99, k at level 200) : py_scope.

(** ** The [struct] module, for the three formats the code uses *)

Module struct.

(** Can [v] be packed as a standard-size unsigned int ([I])? *)
Definition fits_I (v : Z) : bool := (0 <=? v) && (v <? 2 ^ 32).

(** [struct.pack('<IIII', a, b, c, d)]: four little-endian 32-bit words;
    [struct.error] when an argument is out of range. *)
Definition pack_IIII (a b c d : Z) : result bytes :=
  if fits_I a && fits_I b && fits_I c && fits_I d
  then Ok (le_split 4 a ++ le_split 4 b ++ le_split 4 c ++ le_split 4 d)
  else Raise struct_error.

(** [struct.unpack('<IIII', buf)]: [struct.error] unless [buf] has exactly
    16 bytes. *)
Definition unpack_IIII (buf : bytes) : result (Z * Z * Z * Z) :=
  if len buf =? 16
  then Ok (le_combine (slice buf 0 4), le_combine (slice buf 4 8),
           le_combine (slice buf 8 12), le_combine (slice buf 12 16))
  else Raise struct_error.

(** [struct.unpack('<I', buf)[0]] on a four-byte buffer. *)
Definition unpack_I (buf : bytes) : Z := le_combine buf.

(** [struct.pack('<' + 'd' * len(data), *data)]: the eight-byte
    little-endian encodings, in order.  Packing a float as [d] cannot
    fail. *)
Definition pack_d (data : list float) : bytes :=
  flat_map (le_split 8) data.

Fixpoint decode_d (count : nat) (buf : bytes) : list float :=
  match count with
  | O => []
  | S c => le_combine (firstn 8 buf) :: decode_d c (skipn 8 buf)
  end.

(** [struct.unpack('<' + 'd' * count, buf)]: [struct.error] unless [buf]
    has exactly [8 * count] bytes. *)
Definition unpack_d (count : Z) (buf : bytes) : result (list float) :=
  if len buf =? 8 * count
  then Ok (decode_d (Z.to_nat count) buf)
  else Raise struct_error.

End struct.

(** ** [hashlib.sha256] (FIPS 180-4) *)

Module hashlib.

Definition w32 (x : Z) : Z := x mod 2 ^ 32.

Definition add32 (x y : Z) : Z := w32 (x + y).

Definition rotr (n x : Z) : Z :=
  Z.lor (Z.shiftr x n) (w32 (Z.shiftl x (32 - n))).

Definition Ch (x y z : Z) : Z :=
  Z.lxor (Z.land x y) (Z.land (Z.lxor x (2 ^ 32 - 1)) z).

Definition Maj (x y z : Z) : Z :=
  Z.lxor (Z.lxor (Z.land x y) (Z.land x z)) (Z.land y z).

Definition Sigma0 (x : Z) : Z := Z.lxor (Z.lxor (rotr 2 x) (rotr 13 x)) (rotr 22 x).
Definition Sigma1 (x : Z) : Z := Z.lxor (Z.lxor (rotr 6 x) (rotr 11 x)) (rotr 25 x).
Definition sigma0 (x : Z) : Z := Z.lxor (Z.lxor (rotr 7 x) (rotr 18 x)) (Z.shiftr x 3).
Definition sigma1 (x : Z) : Z := Z.lxor (Z.lxor (rotr 17 x) (rotr 19 x)) (Z.shiftr x 10).

(** Round constants: the first 32 bits of the fractional parts of the cube
    roots of the first 64 primes. *)
Definition K : list Z :=
  [ 1116352408; 1899447441; 3049323471; 3921009573;
     961987163; 1508970993; 2453635748; 2870763221;
    3624381080;  310598401;  607225278; 1426881987;
    1925078388; 2162078206; 2614888103; 3248222580;
    3835390401; 4022224774;  264347078;  604807628;
     770255983; 1249150122; 1555081692; 1996064986;
    2554220882; 2821834349; 2952996808; 3210313671;
    3336571891; 3584528711;  113926993;  338241895;
     666307205;  773529912; 1294757372; 1396182291;
    1695183700; 1986661051; 2177026350; 2456956037;
    2730485921; 2820302411; 3259730800; 3345764771;
    3516065817; 3600352804; 4094571909;  275423344;
     430227734;  506948616;  659060556;  883997877;
     958139571; 1322822218; 1537002063; 1747873779;
    1955562222; 2024104815; 2227730452; 2361852424;
    2428436474; 2756734187; 3204031479; 3329325298 ].

(** The eight chaining words. *)
Record state : Type := State
  { Ha : Z; Hb : Z; Hc : Z; Hd : Z; He : Z; Hf : Z; Hg : Z; Hh : Z }.

(** Initial hash value: the first 32 bits of the fractional parts of the
    square roots of the first 8 primes. *)
Definition H0 : state :=
  State 1779033703 3144134277 1013904242 2773480762
        1359893119 2600822924  528734635 1541459225.

(** A word in big-endian byte order, and back. *)
Definition be_split (n : nat) (x : Z) : bytes := rev (le_split n x).
Definition be_combine (b : bytes) : Z := le_combine (rev b).

(** Padding: a 1 bit, zero bits up to 56 mod 64 bytes, then the message
    length in bits as a 64-bit big-endian integer. *)
Definition pad (msg : bytes) : bytes :=
  msg ++ [Byte.x80]
      ++ repeat Byte.x00 (Z.to_nat ((55 - len msg) mod 64))
      ++ be_split 8 (8 * len msg).

(** The [n] big-endian words of a block. *)
Fixpoint words (n : nat) (block : bytes) : list Z :=
  match n with
  | O => []
  | S n' => be_combine (firstn 4 block) :: words n' (skipn 4 block)
  end.

(** Extend the message schedule by [n] words. *)
Fixpoint schedule (n : nat) (w : list Z) : list Z :=
  match n with
  | O => w
  | S n' =>
      let t := length w in
      let x := add32 (add32 (sigma1 (nth (t - 2)%nat w 0)) (nth (t - 7)%nat w 0))
                     (add32 (sigma0 (nth (t - 15)%nat w 0)) (nth (t - 16)%nat w 0)) in
      schedule n' (w ++ [x])
  end.

Definition round (s : state) (kw : Z * Z) : state :=
  let '(k, w) := kw in
  let t1 := add32 (add32 (add32 (Hh s) (Sigma1 (He s)))
                         (add32 (Ch (He s) (Hf s) (Hg s)) k)) w in
  let t2 := add32 (Sigma0 (Ha s)) (Maj (Ha s) (Hb s) (Hc s)) in
  State (add32 t1 t2) (Ha s) (Hb s) (Hc s) (add32 (Hd s) t1) (He s) (Hf s) (Hg s).

Definition compress (h : state) (block : bytes) : state :=
  let w := schedule 48 (words 16 block) in
  let s := fold_left round (combine K w) h in
  State (add32 (Ha h) (Ha s)) (add32 (Hb h) (Hb s))
        (add32 (Hc h) (Hc s)) (add32 (Hd h) (Hd s))
        (add32 (He h) (He s)) (add32 (Hf h) (Hf s))
        (add32 (Hg h) (Hg s)) (add32 (Hh h) (Hh s)).

Fixpoint blocks (n : nat) (h : state) (padded : bytes) : state :=
  match n with
  | O => h
  | S n' => blocks n' (compress h (firstn 64 padded)) (skipn 64 padded)
  end.

(** [hashlib.sha256(msg).digest()] *)
Definition sha256 (msg : bytes) : bytes :=
  let padded := pad msg in
  let h := blocks (length padded / 64)%nat H0 padded in
  be_split 4 (Ha h) ++ be_split 4 (Hb h) ++ be_split 4 (Hc h) ++ be_split 4 (Hd h)
    ++ be_split 4 (He h) ++ be_split 4 (Hf h) ++ be_split 4 (Hg h) ++ be_split 4 (Hh h).

End hashlib.

(** ** [marshaller.py] *)

Module MarshalHeader.

(** Header structure matching C/Java implementations. *)
Record t : Type := Build
  { version : Z;
    payload_size : Z;
    checksum : Z;
    topology_id : Z }.

(** Convert header to binary format. *)
Definition to_bytes (self : t) : result bytes :=
  struct.pack_IIII (version self) (payload_size self)
                   (checksum self) (topology_id self).

(** Create header from binary data: [struct.unpack('<IIII', data[:16])]. *)
Definition from_bytes (data : bytes) : result t :=
  match struct.unpack_IIII (slice data 0 16) with
  | Ok (version, payload_size, checksum, topology_id) =>
      Ok (Build version payload_size checksum topology_id)
  | Raise e => Raise e
  end.

End MarshalHeader.

Module PythonMarshaller.
Import MarshalHeader.

Record t : Type := Build
  { buffer_size : Z;
    topology_id : Z }.

(** The constructor bumps the class-wide [_topology_counter] (under
    [_counter_lock]) and keeps the new value as the instance's topology
    id.  The counter is threaded through: it starts at 0. *)
Definition __init__ (_topology_counter : Z) (initial_size : Z) : Z * t :=
  let _topology_counter := _topology_counter + 1 in
  (_topology_counter, Build initial_size _topology_counter).

(** Compute cryptographic checksum: the first four bytes of the SHA-256
    digest of the packed data, read as a little-endian unsigned int. *)
Definition _compute_checksum (data : list float) : Z :=
  let byte_data := struct.pack_d data in
  let hash_bytes := hashlib.sha256 byte_data in
  struct.unpack_I (slice hash_bytes 0 4).

Local Open Scope py_scope.

(** The header [marshal_data] builds for [data]. *)
Definition header_of (self : t) (data : list float) : MarshalHeader.t :=
  let payload := struct.pack_d data in
  MarshalHeader.Build 1 (len payload) (_compute_checksum data) (topology_id self).

Definition marshal_data (self : t) (data : list float) : M bytes :=
  payload <- invoke call_struct_pack_payload (Ok (struct.pack_d data)) ;;
  let payload_size := len payload in
  checksum <- invoke call_compute_checksum (Ok (_compute_checksum data)) ;;
  let header := MarshalHeader.Build 1 payload_size checksum (topology_id self) in
  header_bytes <- invoke call_to_bytes (to_bytes header) ;;
  ret (header_bytes ++ payload).

Definition unmarshal_data (self : t) (marshalled_data : bytes) : M (list float) :=
  raise_if (len marshalled_data <? 16) then SecurityError TooShort ;;
  header <- invoke call_from_bytes (from_bytes marshalled_data) ;;
  raise_if negb (version header =? 1)
    then SecurityError (InvalidVersion (version header)) ;;
  let payload := slice marshalled_data 16 (16 + payload_size header) in
  raise_if negb (len payload =? payload_size header)
    then SecurityError PayloadSizeMismatch ;;
  let double_count := payload_size header / 8 in
  data <- invoke call_struct_unpack_payload (struct.unpack_d double_count payload) ;;
  computed_checksum <- invoke call_compute_checksum (Ok (_compute_checksum data)) ;;
  raise_if negb (checksum header =? computed_checksum)
    then SecurityError ChecksumFailed ;;
  ret data.

Definition get_topology_id (self : t) : Z := topology_id self.

(** [create_marshaller()] *)
Definition create_marshaller (_topology_counter : Z) : Z * t :=
  __init__ _topology_counter 1024.

End PythonMarshaller.

(** ** [validation.py] *)

Module SecurityValidator.

Inductive ValidationLevel : Type := BASIC | STANDARD | ENHANCED.

Inductive ValidationResult : Type := VALID | INVALID_CHECKSUM | INVALID_FORMAT.

Record SecurityPolicy : Type := Policy
  { level : ValidationLevel;
    max_age_seconds : Z }.

Definition default_policy : SecurityPolicy := Policy STANDARD 3600.

Record t : Type := Build
  { policy : SecurityPolicy;
    _validation_count : Z }.

(** [self.policy = policy or SecurityPolicy()] *)
Definition __init__ (policy : option SecurityPolicy) : t :=
  Build (match policy with Some p => p | None => default_policy end) 0.

(** Validate marshalling header format.  Returns the validator after the
    call and what the call returned. *)
Definition validate_header (self : t) (header_data : bytes)
  : t * result ValidationResult :=
  if negb (len header_data =? 16) then (self, Ok INVALID_FORMAT)
  else
    match struct.unpack_IIII header_data with
    | Raise e => (self, Raise e)
    | Ok (version, payload_size, checksum, topology_id) =>
        if negb (version =? 1) then (self, Ok INVALID_FORMAT)
        else (Build (policy self) (_validation_count self + 1), Ok VALID)
    end.

(** [sum(payload_data) & 0xFFFFFFFF] *)
Definition byte_sum (payload_data : bytes) : Z :=
  Z.land (fold_left Z.add (map byte.unsigned payload_data) 0) 4294967295.

(** [struct.unpack('<I', hashlib.sha256(payload_data).digest()[:4])[0]] *)
Definition sha256_prefix (payload_data : bytes) : Z :=
  struct.unpack_I (slice (hashlib.sha256 payload_data) 0 4).

(** Validate payload integrity. *)
Definition validate_payload (self : t) (payload_data : bytes) (expected_checksum : Z)
  : t * ValidationResult :=
  let computed :=
    match level (policy self) with
    | BASIC => byte_sum payload_data
    | _ => sha256_prefix payload_data
    end in
  if negb (computed =? expected_checksum) then (self, INVALID_CHECKSUM)
  else (self, VALID).

Definition level_value (l : ValidationLevel) : string :=
  match l with
  | BASIC => "basic"
  | STANDARD => "standard"
  | ENHANCED => "enhanced"
  end.

Record statistics : Type := Statistics
  { validation_count : Z;
    security_level : string }.

(** Retrieve validation performance metrics. *)
Definition get_statistics (self : t) : statistics :=
  Statistics (_validation_count self) (level_value (level (policy self))).

(** The calls a client can make on a validator. *)
Inductive request : Type :=
  | req_validate_header (header_data : bytes)
  | req_validate_payload (payload_data : bytes) (expected_checksum : Z).

Definition serve (self : t) (r : request) : t :=
  match r with
  | req_validate_header h => fst (validate_header self h)
  | req_validate_payload p c => fst (validate_payload self p c)
  end.

End SecurityValidator.

(** ** [topology.py] *)

Module TopologyManager.

Inductive NodeState : Type := ACTIVE | DEGRADED | OFFLINE.

#[global] Instance NodeState_eq_dec : EqDecision NodeState.
Proof. solve_decision. Defined.

Record TopologyNode : Type := Node
  { node_id : Z;
    node_type : string;
    last_heartbeat : float;
    marshal_operations : Z;
    state : NodeState }.

(** The manager: the node table and the local node id.  All methods run
    under [self._lock]; [now] is the reading of [time.time()]. *)
Record t : Type := Build
  { _nodes : gmap Z TopologyNode;
    _local_node_id : option Z }.

Definition __init__ : t := Build ∅ None.

(** Register marshalling node in topology. *)
Definition register_node (self : t) (node_type : string) (now : float) : t * Z :=
  let node_id := len_map (_nodes self) + 1 in
  let node := Node node_id node_type now 0 ACTIVE in
  let nodes := <[node_id := node]> (_nodes self) in
  let local :=
    match _local_node_id self with
    | None => Some node_id
    | Some l => Some l
    end in
  (Build nodes local, node_id).

Definition get_local_node_id (self : t) : option Z := _local_node_id self.

(** Update node heartbeat for health monitoring. *)
Definition update_heartbeat (self : t) (node_id0 : Z) (now : float) : t :=
  match _nodes self !! node_id0 with
  | Some n =>
      let n' := Node (node_id n) (node_type n) now (marshal_operations n) (state n) in
      Build (<[node_id0 := n']> (_nodes self)) (_local_node_id self)
  | None => self
  end.

Record summary : Type := Summary
  { total_nodes : Z;
    active_nodes : Z;
    local_node_id : option Z }.

(** Generate topology status summary. *)
Definition get_topology_summary (self : t) : summary :=
  let active_count :=
    len (filter (fun n => state n = ACTIVE) (map snd (map_to_list (_nodes self)))) in
  Summary (len_map (_nodes self)) active_count (_local_node_id self).

(** The calls a client can make on a manager. *)
Inductive request : Type :=
  | req_register_node (node_type : string) (now : float)
  | req_update_heartbeat (node_id : Z) (now : float)
  | req_get_local_node_id
  | req_get_topology_summary.

Definition serve (self : t) (r : request) : t :=
  match r with
  | req_register_node ty now => fst (register_node self ty now)
  | req_update_heartbeat i now => update_heartbeat self i now
  | req_get_local_node_id => self
  | req_get_topology_summary => self
  end.

(** The manager after a sequence of calls on a new instance. *)
Definition after (rs : list request) : t := fold_left serve rs __init__.

(** The node ids the [register_node] calls of a sequence return, in call
    order. *)
Fixpoint registered_ids (self : t) (rs : list request) : list Z :=
  match rs with
  | [] => []
  | req_register_node ty now :: rest =>
      let '(self', node_id) := register_node self ty now in
      node_id :: registered_ids self' rest
  | r :: rest => registered_ids (serve self r) rest
  end.

(** How many [register_node] calls a sequence has. *)
Fixpoint registrations (rs : list request) : nat :=
  match rs with
  | [] => 0
  | req_register_node _ _ :: rest => S (registrations rest)
  | _ :: rest => registrations rest
  end.

(** What holds of a manager on which [n] nodes were registered: the ids
    in the table are 1 to [n], the table records each node under its own
    id and as active, and the local node is node 1 once there is one. *)
Record registered (self : t) (n : nat) : Prop := Registered
  { reg_size : size (_nodes self) = n;
    reg_ids : forall k, is_Some (_nodes self !! k) <-> 1 <= k <= Z.of_nat n;
    reg_active : map_Forall (fun _ node => state node = ACTIVE) (_nodes self);
    reg_local : _local_node_id self = match n with O => None | S _ => Some 1 end }.

End TopologyManager.

(** ** Notions the properties are stated with *)

(** The first marshaller a process creates: [create_marshaller()] with the
    class counter still at 0. *)
Definition first_marshaller : PythonMarshaller.t :=
  snd (PythonMarshaller.create_marshaller 0).

(** Marshalling [data] gives a frame, and unmarshalling that frame gives
    [data] back. *)
Definition round_trips (self : PythonMarshaller.t) (data : list float) : Prop :=
  exists frame,
    outcome (PythonMarshaller.marshal_data self data) = Ok frame
    /\ outcome (PythonMarshaller.unmarshal_data self frame) = Ok data.

(** Marshalling [data] gives a frame of [16 + 8 * len(data)] bytes whose
    header declares a payload of [8 * len(data)] bytes. *)
Definition frame_sized (self : PythonMarshaller.t) (data : list float) : Prop :=
  exists frame h,
    outcome (PythonMarshaller.marshal_data self data) = Ok frame
    /\ len frame = 16 + 8 * len data
    /\ MarshalHeader.from_bytes frame = Ok h
    /\ MarshalHeader.payload_size h = 8 * len data.

(** [frame] with payload byte [i] replaced by [b]; the header stays. *)
Definition tamper (frame : bytes) (i : nat) (b : byte) : bytes :=
  <[(16 + i)%nat := b]> frame.


(** The two digests in the words of the design: the sum of the payload
    bytes as unsigned integers, modulo 2^32; and the first four bytes of the
    SHA-256 hash of the payload, as a little-endian 32-bit integer. *)
Definition spec_fast_digest (payload : bytes) : Z :=
  fold_right (fun b acc => byte.unsigned b + acc) 0 payload mod 2 ^ 32.

Definition spec_strong_digest (payload : bytes) : Z :=
  match hashlib.sha256 payload with
  | b0 :: b1 :: b2 :: b3 :: _ =>
      byte.unsigned b0 + 2 ^ 8 * byte.unsigned b1
      + 2 ^ 16 * byte.unsigned b2 + 2 ^ 24 * byte.unsigned b3
  | _ => 0
  end.

Definition spec_digest (l : SecurityValidator.ValidationLevel) (payload : bytes) : Z :=
  match l with
  | SecurityValidator.BASIC => spec_fast_digest payload
  | SecurityValidator.STANDARD | SecurityValidator.ENHANCED => spec_strong_digest payload
  end.

(** ** More of [marshaller.py], [validation.py] and [topology.py] *)

(** [n] calls of [create_marshaller()], one after the other: the class
    counter afterwards and the marshallers, oldest first. *)
Fixpoint create_marshallers (_topology_counter : Z) (n : nat)
  : Z * list PythonMarshaller.t :=
  match n with
  | O => (_topology_counter, [])
  | S n' =>
      let '(counter1, m) := PythonMarshaller.create_marshaller _topology_counter in
      let '(counter2, ms) := create_marshallers counter1 n' in
      (counter2, m :: ms)
  end.

(** The requests [validate_header] answers with [VALID]: sixteen bytes
    whose first four, read as a little-endian integer, are 1. *)
Definition well_formed_header (header_data : bytes) : bool :=
  (len header_data =? 16) && (le_combine (slice header_data 0 4) =? 1).

Definition counted (r : SecurityValidator.request) : bool :=
  match r with
  | SecurityValidator.req_validate_header header_data => well_formed_header header_data
  | SecurityValidator.req_validate_payload _ _ => false
  end.

(** The node types of the [register_node] calls of a sequence, in call
    order. *)
Fixpoint registered_types (rs : list TopologyManager.request) : list string :=
  match rs with
  | [] => []
  | TopologyManager.req_register_node ty _ :: rest => ty :: registered_types rest
  | _ :: rest => registered_types rest
  end.

(** What the table records about each node, given the node types
    registered so far. *)
Definition recorded (self : TopologyManager.t) (types : list string) : Prop :=
  forall k node,
    TopologyManager._nodes self !! k = Some node ->
    TopologyManager.node_id node = k
    /\ TopologyManager.marshal_operations node = 0
    /\ types !! Z.to_nat (k - 1) = Some (TopologyManager.node_type node).

(** ** [python_fallback.py]

    The pure Python fallback of the Cython package.  [numpy] is used for two
    things only: [np.array(data, dtype=np.float64).tobytes()], the float64
    values in the host's byte order, and [np.frombuffer(payload,
    dtype=np.float64)], the reverse.  The host is taken to be little-endian,
    so the former is [struct.pack('<' + 'd' * n, *data)]. *)

Module ZeroOverheadMarshaller.

(** The messages of the [ValueError]s that can leave [unmarshal_data]:
    - [Invalid_data]       "Invalid marshalled data"
    - [Invalid_version v]  f"Invalid version: {version}"
    - [Checksum_failed]    "Checksum validation failed"
    - [Buffer_size]        numpy's "buffer size must be a multiple of element
                           size", from [np.frombuffer] *)
Inductive value_message : Type :=
  | Invalid_data
  | Invalid_version (version : Z)
  | Checksum_failed
  | Buffer_size.

Inductive raised : Type :=
  | ValueError (msg : value_message)
  | StructError.

Inductive reply (A : Type) : Type :=
  | Returns (a : A)
  | Raises (e : raised).
Arguments Returns {A} a.
Arguments Raises {A} e.

Record t : Type := Build
  { buffer_size : Z;
    topology_id : Z;
    marshal_count : Z;
    error_count : Z }.

(** [self.topology_id = id(self) & 0xFFFFFFFF]; [id_self] is [id(self)]. *)
Definition __init__ (id_self : Z) (initial_size : Z) : t :=
  Build initial_size (Z.land id_self 4294967295) 0 0.

Definition create_marshaller (id_self : Z) : t := __init__ id_self 1024.

(** Marshal data using pure Python.  Returns the marshaller after the call
    and what the call returned or raised. *)
Definition marshal_data (self : t) (data : list float) : t * reply bytes :=
  let payload := struct.pack_d data in
  let payload_size := len payload in
  let checksum := SecurityValidator.byte_sum payload in
  match struct.pack_IIII 1 payload_size checksum (topology_id self) with
  | Raise _ => (self, Raises StructError)
  | Ok header =>
      (Build (buffer_size self) (topology_id self)
             (marshal_count self + 1) (error_count self),
       Returns (header ++ payload))
  end.

(** [self.error_count += 1] *)
Definition count_error (self : t) : t :=
  Build (buffer_size self) (topology_id self) (marshal_count self) (error_count self + 1).

(** [np.frombuffer(payload, dtype=np.float64)] *)
Definition frombuffer (payload : bytes) : reply (list float) :=
  if len payload mod 8 =? 0
  then Returns (struct.decode_d (Z.to_nat (len payload / 8)) payload)
  else Raises (ValueError Buffer_size).

(** Unmarshal data using pure Python. *)
Definition unmarshal_data (self : t) (marshalled_data : bytes) : t * reply (list float) :=
  if len marshalled_data <? 16
  then (count_error self, Raises (ValueError Invalid_data))
  else
    let header := slice marshalled_data 0 16 in
    let payload := skipn 16 marshalled_data in
    match struct.unpack_IIII header with
    | Raise _ => (self, Raises StructError)
    | Ok (version, payload_size, checksum, topology_id) =>
        if negb (version =? 1)
        then (count_error self, Raises (ValueError (Invalid_version version)))
        else if negb (SecurityValidator.byte_sum payload =? checksum)
        then (count_error self, Raises (ValueError Checksum_failed))
        else (self, frombuffer payload)
    end.

Definition get_topology_id (self : t) : Z := topology_id self.

End ZeroOverheadMarshaller.

(** * Properties *)

(** ** Sequences and slices *)

Lemma len_nonneg {A : Type} (l : list A) : 0 <= len l.
Proof. unfold len. lia. Qed.

Lemma len_app {A : Type} (a b : list A) : len (a ++ b) = len a + len b.
Proof. unfold len. rewrite length_app. lia. Qed.

Lemma slice_prefix {A : Type} (b : list A) (n : Z) :
  slice b 0 n = firstn (Z.to_nat n) b.
Proof. unfold slice. rewrite Z.sub_0_r. reflexivity. Qed.

Lemma slice_length {A : Type} (b : list A) (lo hi : Z) :
  0 <= lo -> lo <= hi -> hi <= len b -> len (slice b lo hi) = hi - lo.
Proof.
  unfold slice, len. intros Hlo Hle Hhi.
  rewrite length_take, length_drop. lia.
Qed.

(** Bytes past the end of a slice do not matter. *)
Lemma slice_app_within {A : Type} (b extra : list A) (lo hi : Z) :
  0 <= lo -> lo <= hi -> hi <= len b -> slice (b ++ extra) lo hi = slice b lo hi.
Proof.
  unfold slice, len. intros Hlo Hle Hhi.
  rewrite drop_app, take_app.
  replace (Z.to_nat (hi - lo) - length (drop (Z.to_nat lo) b))%nat with 0%nat
    by (rewrite length_drop; lia).
  rewrite take_0. apply app_nil_r.
Qed.

(** ** The [struct] module *)

Lemma fits_I_spec (v : Z) : struct.fits_I v = true <-> 0 <= v < 2 ^ 32.
Proof. unfold struct.fits_I. rewrite andb_true_iff, Z.leb_le, Z.ltb_lt. tauto. Qed.

Lemma length_pack_d (data : list float) :
  length (struct.pack_d data) = (8 * length data)%nat.
Proof.
  unfold struct.pack_d. induction data as [|x data IH]; [reflexivity|].
  cbn [flat_map]. rewrite length_app, length_le_split, IH. simpl. lia.
Qed.

Lemma len_pack_d (data : list float) : len (struct.pack_d data) = 8 * len data.
Proof. unfold len. rewrite length_pack_d. lia. Qed.

Lemma le_combine_split_8 (x : float) :
  is_float64 x -> le_combine (le_split 8 x) = x.
Proof.
  intros Hx. rewrite le_combine_split. apply Z.mod_small. exact Hx.
Qed.

(** Decoding what was packed gives the floats back, bit for bit. *)
Lemma decode_pack_d (data : list float) :
  Forall is_float64 data ->
  struct.decode_d (length data) (struct.pack_d data) = data.
Proof.
  unfold struct.pack_d. induction 1 as [|x data Hx _ IH]; [reflexivity|].
  cbn [length flat_map struct.decode_d].
  rewrite take_app_length' by (rewrite length_le_split; reflexivity).
  rewrite drop_app_length' by (rewrite length_le_split; reflexivity).
  rewrite le_combine_split_8 by exact Hx. f_equal. exact IH.
Qed.

(** Packing what was decoded gives the buffer back. *)
Lemma pack_decode_d (count : nat) (buf : bytes) :
  length buf = (8 * count)%nat ->
  struct.pack_d (struct.decode_d count buf) = buf.
Proof.
  unfold struct.pack_d. revert buf.
  induction count as [|count IH]; intros buf Hlen.
  - destruct buf; [reflexivity | discriminate].
  - cbn [struct.decode_d flat_map].
    rewrite IH by (rewrite length_drop; lia).
    assert (H8 : length (firstn 8 buf) = 8%nat) by (rewrite length_take; lia).
    rewrite <- H8 at 1. rewrite split_le_combine. apply take_drop.
Qed.

Lemma length_decode_d (count : nat) (buf : bytes) :
  length (struct.decode_d count buf) = count.
Proof.
  revert buf. induction count as [|count IH]; intros buf; [reflexivity|].
  cbn [struct.decode_d length]. rewrite IH. reflexivity.
Qed.

(** Every decoded value is a 64-bit pattern. *)
Lemma decode_d_float64 (count : nat) (buf : bytes) :
  Forall is_float64 (struct.decode_d count buf).
Proof.
  revert buf. induction count as [|count IH]; intros buf; constructor.
  - pose proof (le_combine_bound (firstn 8 buf)) as Hb.
    assert (Hl : (length (firstn 8 buf) <= 8)%nat) by (rewrite length_take; lia).
    unfold is_float64. split; [lia|].
    apply Z.lt_le_trans with (1 := proj2 Hb).
    apply Z.pow_le_mono_r; lia.
  - apply IH.
Qed.

(** The decoded list determines the buffer it was decoded from. *)
Lemma decode_d_inj (count : nat) (b1 b2 : bytes) :
  length b1 = (8 * count)%nat -> length b2 = (8 * count)%nat ->
  struct.decode_d count b1 = struct.decode_d count b2 -> b1 = b2.
Proof.
  intros H1 H2 Heq.
  rewrite <- (pack_decode_d count b1 H1), <- (pack_decode_d count b2 H2).
  rewrite Heq. reflexivity.
Qed.

Lemma pack_IIII_Ok (a b c d : Z) :
  0 <= a < 2 ^ 32 -> 0 <= b < 2 ^ 32 -> 0 <= c < 2 ^ 32 -> 0 <= d < 2 ^ 32 ->
  struct.pack_IIII a b c d
  = Ok (le_split 4 a ++ le_split 4 b ++ le_split 4 c ++ le_split 4 d).
Proof.
  intros Ha Hb Hc Hd. unfold struct.pack_IIII.
  rewrite (proj2 (fits_I_spec a) Ha), (proj2 (fits_I_spec b) Hb),
          (proj2 (fits_I_spec c) Hc), (proj2 (fits_I_spec d) Hd).
  reflexivity.
Qed.

Lemma pack_IIII_length (a b c d : Z) (out : bytes) :
  struct.pack_IIII a b c d = Ok out -> length out = 16%nat.
Proof.
  unfold struct.pack_IIII.
  destruct (_ && _); [|discriminate]. intros [= <-]. reflexivity.
Qed.

Lemma pack_IIII_fits (a b c d : Z) (out : bytes) :
  struct.pack_IIII a b c d = Ok out ->
  (0 <= a < 2 ^ 32 /\ 0 <= b < 2 ^ 32) /\ (0 <= c < 2 ^ 32 /\ 0 <= d < 2 ^ 32).
Proof.
  unfold struct.pack_IIII.
  destruct (_ && _) eqn:E; [|discriminate]. intros _.
  rewrite !andb_true_iff, !fits_I_spec in E. tauto.
Qed.

Lemma le_combine_split_4 (x : Z) :
  0 <= x < 2 ^ 32 -> le_combine (le_split 4 x) = x.
Proof. intros Hx. rewrite le_combine_split. apply Z.mod_small. exact Hx. Qed.

Lemma unpack_IIII_app (wa wb wc wd : bytes) :
  length wa = 4%nat -> length wb = 4%nat -> length wc = 4%nat -> length wd = 4%nat ->
  struct.unpack_IIII (wa ++ wb ++ wc ++ wd)
  = Ok (le_combine wa, le_combine wb, le_combine wc, le_combine wd).
Proof.
  intros Ha Hb Hc Hd.
  destruct wa as [|a0 [|a1 [|a2 [|a3 [|]]]]]; try discriminate Ha.
  destruct wb as [|b0 [|b1 [|b2 [|b3 [|]]]]]; try discriminate Hb.
  destruct wc as [|c0 [|c1 [|c2 [|c3 [|]]]]]; try discriminate Hc.
  destruct wd as [|d0 [|d1 [|d2 [|d3 [|]]]]]; try discriminate Hd.
  reflexivity.
Qed.

(** Unpacking sixteen packed bytes gives the four fields back. *)
Lemma unpack_pack_IIII (a b c d : Z) (out : bytes) :
  struct.pack_IIII a b c d = Ok out ->
  struct.unpack_IIII out = Ok (a, b, c, d).
Proof.
  intros Hp. pose proof (pack_IIII_fits _ _ _ _ _ Hp) as [[Ha Hb] [Hc Hd]].
  rewrite pack_IIII_Ok in Hp by assumption.
  assert (E : out = le_split 4 a ++ le_split 4 b ++ le_split 4 c ++ le_split 4 d)
    by congruence.
  rewrite E, unpack_IIII_app by apply length_le_split.
  rewrite !le_combine_split_4 by assumption. reflexivity.
Qed.

Lemma unpack_IIII_length (buf : bytes) :
  len buf <> 16 -> struct.unpack_IIII buf = Raise struct_error.
Proof.
  intros H. unfold struct.unpack_IIII.
  destruct (Z.eqb_spec (len buf) 16); [contradiction | reflexivity].
Qed.

Lemma unpack_d_Ok (count : Z) (buf : bytes) :
  len buf = 8 * count ->
  struct.unpack_d count buf = Ok (struct.decode_d (Z.to_nat count) buf).
Proof. intros H. unfold struct.unpack_d. rewrite H, Z.eqb_refl. reflexivity. Qed.

Lemma unpack_d_error (count : Z) (buf : bytes) :
  len buf <> 8 * count -> struct.unpack_d count buf = Raise struct_error.
Proof.
  intros H. unfold struct.unpack_d.
  destruct (Z.eqb_spec (len buf) (8 * count)); [contradiction | reflexivity].
Qed.

(** ** [hashlib.sha256] *)

Example sha256_empty :
  map byte.unsigned (hashlib.sha256 [])
  = [227; 176; 196; 66; 152; 252; 28; 20; 154; 251; 244; 200; 153; 111; 185; 36;
     39; 174; 65; 228; 100; 155; 147; 76; 164; 149; 153; 27; 120; 82; 184; 85].
Proof. vm_compute. reflexivity. Qed.

Example sha256_abc :
  map byte.unsigned (hashlib.sha256 [Byte.x61; Byte.x62; Byte.x63])
  = [186; 120; 22; 191; 143; 1; 207; 234; 65; 65; 64; 222; 93; 174; 34; 35;
     176; 3; 97; 163; 150; 23; 122; 156; 180; 16; 255; 97; 242; 0; 21; 173].
Proof. vm_compute. reflexivity. Qed.

(** A message that needs two blocks. *)
Example sha256_two_blocks :
  map byte.unsigned (hashlib.sha256 (repeat Byte.x61 119))
  = [49; 235; 165; 28; 49; 58; 92; 8; 34; 106; 223; 24; 212; 163; 89; 207;
     223; 216; 210; 232; 22; 177; 63; 74; 249; 82; 247; 234; 101; 132; 220; 251].
Proof. vm_compute. reflexivity. Qed.

Lemma length_be_split (n : nat) (x : Z) : length (hashlib.be_split n x) = n.
Proof. unfold hashlib.be_split. rewrite length_rev. apply length_le_split. Qed.

(** A digest always has 32 bytes. *)
Lemma sha256_length (msg : bytes) : length (hashlib.sha256 msg) = 32%nat.
Proof.
  unfold hashlib.sha256. cbv zeta.
  rewrite !length_app, !length_be_split. reflexivity.
Qed.

(** ** The two digests *)

Lemma sha256_prefix_range (payload : bytes) :
  0 <= SecurityValidator.sha256_prefix payload < 2 ^ 32.
Proof.
  unfold SecurityValidator.sha256_prefix, struct.unpack_I.
  pose proof (le_combine_bound (slice (hashlib.sha256 payload) 0 4)) as Hb.
  assert (Hl : length (slice (hashlib.sha256 payload) 0 4) = 4%nat).
  { rewrite slice_prefix, length_take, sha256_length. reflexivity. }
  rewrite Hl in Hb. exact Hb.
Qed.

(** The marshaller's checksum is the SHA-256 prefix of the packed data. *)
Lemma compute_checksum_prefix (data : list float) :
  PythonMarshaller._compute_checksum data
  = SecurityValidator.sha256_prefix (struct.pack_d data).
Proof. reflexivity. Qed.

Lemma compute_checksum_range (data : list float) :
  0 <= PythonMarshaller._compute_checksum data < 2 ^ 32.
Proof. rewrite compute_checksum_prefix. apply sha256_prefix_range. Qed.

(** ** [MarshalHeader] *)

Lemma slice_slice {A : Type} (b : list A) (n lo hi : Z) :
  0 <= lo -> lo <= hi -> hi <= n -> slice (slice b 0 n) lo hi = slice b lo hi.
Proof.
  intros Hlo Hle Hhi. unfold slice. rewrite Z.sub_0_r.
  change (Z.to_nat 0) with 0%nat. rewrite drop_0.
  rewrite !take_drop_commute, take_take. do 2 f_equal. lia.
Qed.

(** [from_bytes] raises [struct.error] on fewer than 16 bytes. *)
Lemma from_bytes_short (data : bytes) :
  len data < 16 -> MarshalHeader.from_bytes data = Raise struct_error.
Proof.
  intros H. unfold MarshalHeader.from_bytes.
  rewrite unpack_IIII_length; [reflexivity|].
  unfold len in *. rewrite slice_prefix, length_take. lia.
Qed.

(** On 16 bytes or more it decodes the first 16 and ignores the rest. *)
Lemma from_bytes_long (data : bytes) :
  16 <= len data ->
  MarshalHeader.from_bytes data
  = Ok (MarshalHeader.Build (le_combine (slice data 0 4)) (le_combine (slice data 4 8))
                            (le_combine (slice data 8 12)) (le_combine (slice data 12 16))).
Proof.
  intros H. unfold MarshalHeader.from_bytes, struct.unpack_IIII.
  assert (Hl : len (slice data 0 16) = 16).
  { unfold len in *. rewrite slice_prefix, length_take. lia. }
  rewrite Hl. cbn [Z.eqb Pos.eqb].
  rewrite !slice_slice by lia. reflexivity.
Qed.

Lemma from_bytes_app (data extra : bytes) :
  16 <= len data ->
  MarshalHeader.from_bytes (data ++ extra) = MarshalHeader.from_bytes data.
Proof.
  intros H. unfold MarshalHeader.from_bytes.
  rewrite slice_app_within by lia. reflexivity.
Qed.

(** A decoded field is an unsigned 32-bit integer. *)
Lemma slice_word_range (data : bytes) (lo : Z) :
  0 <= lo -> 0 <= le_combine (slice data lo (lo + 4)) < 2 ^ 32.
Proof.
  intros Hlo.
  pose proof (le_combine_bound (slice data lo (lo + 4))) as Hb.
  assert (Hl : (length (slice data lo (lo + 4)) <= 4)%nat).
  { unfold slice. rewrite length_take. lia. }
  split; [lia|]. apply Z.lt_le_trans with (1 := proj2 Hb).
  apply Z.pow_le_mono_r; lia.
Qed.

Lemma from_bytes_fields (data : bytes) (h : MarshalHeader.t) :
  MarshalHeader.from_bytes data = Ok h ->
  16 <= len data
  /\ (0 <= MarshalHeader.version h < 2 ^ 32
      /\ 0 <= MarshalHeader.payload_size h < 2 ^ 32)
  /\ (0 <= MarshalHeader.checksum h < 2 ^ 32
      /\ 0 <= MarshalHeader.topology_id h < 2 ^ 32).
Proof.
  intros Hh. destruct (Z.lt_ge_cases (len data) 16) as [Hs|Hl].
  - rewrite from_bytes_short in Hh by exact Hs. discriminate.
  - rewrite from_bytes_long in Hh by exact Hl. injection Hh as <-.
    cbn [MarshalHeader.version MarshalHeader.payload_size
         MarshalHeader.checksum MarshalHeader.topology_id].
    pose proof (slice_word_range data 0 ltac:(lia)) as H0.
    pose proof (slice_word_range data 4 ltac:(lia)) as H4.
    pose proof (slice_word_range data 8 ltac:(lia)) as H8.
    pose proof (slice_word_range data 12 ltac:(lia)) as H12.
    change (0 + 4) with 4 in H0. change (4 + 4) with 8 in H4.
    change (8 + 4) with 12 in H8. change (12 + 4) with 16 in H12.
    tauto.
Qed.

(** Decoding an encoded header, whatever follows it, gives the header. *)
Lemma from_to_bytes (h : MarshalHeader.t) (header_bytes rest : bytes) :
  MarshalHeader.to_bytes h = Ok header_bytes ->
  MarshalHeader.from_bytes (header_bytes ++ rest) = Ok h.
Proof.
  intros Hp. unfold MarshalHeader.to_bytes in Hp.
  unfold MarshalHeader.from_bytes.
  pose proof (pack_IIII_length _ _ _ _ _ Hp) as Hl.
  rewrite slice_prefix. change (Z.to_nat 16) with 16%nat.
  rewrite take_app_length' by (symmetry; exact Hl).
  rewrite (unpack_pack_IIII _ _ _ _ _ Hp). destruct h; reflexivity.
Qed.

(** ** [PythonMarshaller]: how a run goes *)

Section Marshaller.
Import MarshalHeader PythonMarshaller.

Variable self : PythonMarshaller.t.

(** [marshal_data] always makes the same three calls; only packing the
    header can fail. *)
Lemma marshal_data_run (data : list float) :
  marshal_data self data
  = ([call_struct_pack_payload; call_compute_checksum; call_to_bytes],
     match to_bytes (header_of self data) with
     | Ok header_bytes => Ok (header_bytes ++ struct.pack_d data)
     | Raise e => Raise e
     end).
Proof.
  unfold marshal_data, header_of, bind, invoke, ret.
  destruct (to_bytes _); reflexivity.
Qed.

Lemma header_of_to_bytes (data : list float) :
  8 * len data < 2 ^ 32 -> 0 <= PythonMarshaller.topology_id self < 2 ^ 32 ->
  to_bytes (header_of self data)
  = Ok (le_split 4 1 ++ le_split 4 (8 * len data)
          ++ le_split 4 (_compute_checksum data)
          ++ le_split 4 (PythonMarshaller.topology_id self)).
Proof.
  intros Hlen Htid. unfold to_bytes, header_of.
  cbn [version payload_size checksum MarshalHeader.topology_id].
  rewrite len_pack_d. apply pack_IIII_Ok.
  - lia.
  - pose proof (len_nonneg data). lia.
  - apply compute_checksum_range.
  - exact Htid.
Qed.

(** The header cannot be packed when the payload size does not fit an
    unsigned 32-bit field. *)
Lemma marshal_data_overflow (data : list float) :
  2 ^ 32 <= 8 * len data ->
  outcome (marshal_data self data) = Raise struct_error.
Proof.
  intros Hlen. rewrite marshal_data_run. unfold outcome. cbn [snd].
  destruct (to_bytes (header_of self data)) as [hb|e] eqn:E.
  - unfold to_bytes in E. apply pack_IIII_fits in E.
    unfold header_of in E. cbn [payload_size] in E.
    rewrite len_pack_d in E. lia.
  - unfold to_bytes, struct.pack_IIII in E.
    destruct (_ && _) in E; [discriminate | ]. injection E as <-. reflexivity.
Qed.

Lemma marshal_data_Ok_inv (data : list float) (frame : bytes) :
  outcome (marshal_data self data) = Ok frame ->
  exists header_bytes,
    to_bytes (header_of self data) = Ok header_bytes
    /\ length header_bytes = 16%nat
    /\ frame = header_bytes ++ struct.pack_d data.
Proof.
  rewrite marshal_data_run. unfold outcome. cbn [snd].
  destruct (to_bytes (header_of self data)) as [hb|e] eqn:E; [|discriminate].
  intros [= <-]. exists hb. split; [reflexivity|]. split; [|reflexivity].
  unfold to_bytes in E. exact (pack_IIII_length _ _ _ _ _ E).
Qed.

(** Step 1: fewer than 16 bytes. *)
Lemma unmarshal_data_short (marshalled_data : bytes) :
  len marshalled_data < 16 ->
  unmarshal_data self marshalled_data = ([], Raise (SecurityError TooShort)).
Proof.
  intros H. unfold unmarshal_data.
  destruct (Z.ltb_spec (len marshalled_data) 16); [reflexivity | lia].
Qed.

(** Step 2: an unsupported version. *)
Lemma unmarshal_data_version (marshalled_data : bytes) (h : MarshalHeader.t) :
  from_bytes marshalled_data = Ok h -> version h <> 1 ->
  unmarshal_data self marshalled_data
  = ([call_from_bytes], Raise (SecurityError (InvalidVersion (version h)))).
Proof.
  intros Hh Hv. pose proof (from_bytes_fields _ _ Hh) as [Hl _].
  unfold unmarshal_data.
  destruct (Z.ltb_spec (len marshalled_data) 16); [lia|].
  rewrite Hh. unfold invoke, bind.
  destruct (Z.eqb_spec (version h) 1); [contradiction | reflexivity].
Qed.

Lemma payload_length (marshalled_data : bytes) (n : Z) :
  0 <= n ->
  len (slice marshalled_data 16 (16 + n)) = Z.min n (Z.max 0 (len marshalled_data - 16)).
Proof.
  intros Hn. unfold slice, len. rewrite length_take, length_drop. lia.
Qed.

(** Step 3: fewer payload bytes than the header declares. *)
Lemma unmarshal_data_truncated (marshalled_data : bytes) (h : MarshalHeader.t) :
  from_bytes marshalled_data = Ok h -> version h = 1 ->
  len marshalled_data < 16 + payload_size h ->
  unmarshal_data self marshalled_data
  = ([call_from_bytes], Raise (SecurityError PayloadSizeMismatch)).
Proof.
  intros Hh Hv Hlen. pose proof (from_bytes_fields _ _ Hh) as [Hl [[_ Hp] _]].
  unfold unmarshal_data.
  destruct (Z.ltb_spec (len marshalled_data) 16); [lia|].
  rewrite Hh. unfold invoke, bind. rewrite Hv. cbn [Z.eqb Pos.eqb negb].
  rewrite payload_length by lia.
  destruct (Z.eqb_spec (Z.min (payload_size h) (Z.max 0 (len marshalled_data - 16)))
                       (payload_size h)); [lia | reflexivity].
Qed.

(** Steps 4 and 5, in the order the code takes them: the payload is
    decoded first, the checksum is computed over the decoded values. *)
Lemma unmarshal_data_payload (marshalled_data : bytes) (h : MarshalHeader.t) :
  from_bytes marshalled_data = Ok h -> version h = 1 ->
  16 + payload_size h <= len marshalled_data ->
  unmarshal_data self marshalled_data
  = match struct.unpack_d (payload_size h / 8)
            (slice marshalled_data 16 (16 + payload_size h)) with
    | Raise e => ([call_from_bytes; call_struct_unpack_payload], Raise e)
    | Ok data =>
        ([call_from_bytes; call_struct_unpack_payload; call_compute_checksum],
         if checksum h =? _compute_checksum data then Ok data
         else Raise (SecurityError ChecksumFailed))
    end.
Proof.
  intros Hh Hv Hlen. pose proof (from_bytes_fields _ _ Hh) as [Hl [[_ Hp] _]].
  unfold unmarshal_data.
  destruct (Z.ltb_spec (len marshalled_data) 16); [lia|].
  rewrite Hh. unfold invoke, bind. rewrite Hv. cbn [Z.eqb Pos.eqb negb].
  rewrite payload_length by lia.
  destruct (Z.eqb_spec (Z.min (payload_size h) (Z.max 0 (len marshalled_data - 16)))
                       (payload_size h)); [|lia].
  cbn [negb].
  destruct (struct.unpack_d _ _) as [data|err]; [|reflexivity].
  destruct (checksum h =? _compute_checksum data); reflexivity.
Qed.

End Marshaller.

(** ** Frames *)

Section Frames.
Import MarshalHeader PythonMarshaller.

Variable self : PythonMarshaller.t.

Lemma slice_payload (header_bytes payload : bytes) :
  length header_bytes = 16%nat ->
  slice (header_bytes ++ payload) 16 (16 + len payload) = payload.
Proof.
  intros Hl. unfold slice, len.
  change (Z.to_nat 16) with 16%nat.
  rewrite drop_app_length' by (symmetry; exact Hl).
  apply take_ge. lia.
Qed.

(** Unmarshalling a header followed by exactly the payload it declares,
    when that payload is a whole number of doubles. *)
Lemma unmarshal_data_frame (h : MarshalHeader.t) (header_bytes payload : bytes)
      (count : nat) :
  to_bytes h = Ok header_bytes -> version h = 1 ->
  payload_size h = len payload -> length payload = (8 * count)%nat ->
  unmarshal_data self (header_bytes ++ payload)
  = ([call_from_bytes; call_struct_unpack_payload; call_compute_checksum],
     if checksum h =? SecurityValidator.sha256_prefix payload
     then Ok (struct.decode_d count payload)
     else Raise (SecurityError ChecksumFailed)).
Proof.
  intros Hb Hv Hps Hlen.
  pose proof (pack_IIII_length _ _ _ _ _ Hb) as H16.
  rewrite (unmarshal_data_payload self _ h).
  - rewrite Hps, slice_payload by exact H16.
    replace (len payload / 8) with (Z.of_nat count)
      by (unfold len; rewrite Hlen; apply Z.div_unique_exact; lia).
    rewrite unpack_d_Ok by (unfold len; lia).
    rewrite Nat2Z.id, compute_checksum_prefix, pack_decode_d by exact Hlen.
    reflexivity.
  - apply from_to_bytes. exact Hb.
  - exact Hv.
  - rewrite len_app, Hps. unfold len at 2. rewrite H16. lia.
Qed.

Lemma marshal_data_frame (data : list float) (frame : bytes) :
  outcome (marshal_data self data) = Ok frame ->
  exists header_bytes,
    to_bytes (header_of self data) = Ok header_bytes
    /\ length header_bytes = 16%nat
    /\ frame = header_bytes ++ struct.pack_d data
    /\ 8 * len data < 2 ^ 32.
Proof.
  intros Hm. destruct (marshal_data_Ok_inv self _ _ Hm) as (hb & Hb & H16 & ->).
  exists hb. repeat split; try assumption.
  destruct (Z.lt_ge_cases (8 * len data) (2 ^ 32)) as [Hlt|Hge]; [exact Hlt|].
  rewrite (marshal_data_overflow self _ Hge) in Hm. discriminate.
Qed.

Lemma round_trip_frame (data : list float) (frame : bytes) :
  Forall is_float64 data ->
  outcome (marshal_data self data) = Ok frame ->
  unmarshal_data self frame
  = ([call_from_bytes; call_struct_unpack_payload; call_compute_checksum], Ok data).
Proof.
  intros Hd Hm. destruct (marshal_data_frame _ _ Hm) as (hb & Hb & H16 & -> & _).
  rewrite (unmarshal_data_frame (header_of self data) hb _ (length data) Hb);
    [| reflexivity | reflexivity | apply length_pack_d].
  cbn [header_of checksum]. rewrite compute_checksum_prefix, Z.eqb_refl.
  rewrite decode_pack_d by exact Hd. reflexivity.
Qed.

End Frames.

(** ** Round trip and frame size *)

(** C1 (as amended).  For every sequence of fewer than 2^29 float64 values,
    marshalled by a marshaller whose topology id fits the header's unsigned
    32-bit field, [unmarshal_data(marshal_data(v))] returns [v] bit for bit.
    The empty sequence is included. *)
Theorem C1_round_trip (self : PythonMarshaller.t) (data : list float) :
  Forall is_float64 data ->
  len data < 2 ^ 29 ->
  0 <= PythonMarshaller.topology_id self < 2 ^ 32 ->
  round_trips self data.
Proof.
  intros Hd Hlen Htid. unfold round_trips.
  assert (Hm : outcome (PythonMarshaller.marshal_data self data)
               = Ok ((le_split 4 1 ++ le_split 4 (8 * len data)
                        ++ le_split 4 (PythonMarshaller._compute_checksum data)
                        ++ le_split 4 (PythonMarshaller.topology_id self))
                       ++ struct.pack_d data)).
  { rewrite marshal_data_run, header_of_to_bytes by lia. reflexivity. }
  eexists. split; [exact Hm|].
  rewrite (round_trip_frame self data _ Hd Hm). reflexivity.
Qed.

(** The documented example: [1.0, 2.5, 3.14159, -4.7] and the empty list. *)
Lemma C1_round_trip_witness :
  round_trips first_marshaller
    [4607182418800017408; 4612811918334230528; 4614256650576692846;
     13840349784844324045]
  /\ round_trips first_marshaller [].
Proof.
  split.
  - apply C1_round_trip.
    + repeat constructor; unfold is_float64; lia.
    + reflexivity.
    + split; [discriminate | reflexivity].
  - apply C1_round_trip.
    + constructor.
    + reflexivity.
    + split; [discriminate | reflexivity].
Defined.

(** A list too long for the header: 2^29 copies of [0.0]. *)
Lemma marshal_data_too_long (self : PythonMarshaller.t) :
  outcome (PythonMarshaller.marshal_data self (repeat 0 (Z.to_nat (2 ^ 29))))
  = Raise struct_error.
Proof.
  apply marshal_data_overflow. unfold len. rewrite repeat_length.
  rewrite Z2Nat.id by (apply Z.pow_nonneg; lia).
  change (8 * 2 ^ 29) with (2 ^ 32). lia.
Qed.

(** C1, as stated, fails: with 2^29 values the payload size is 2^32, the
    header cannot be packed and [marshal_data] raises [struct.error]. *)
Lemma C1_counterexample :
  Forall is_float64 (repeat 0 (Z.to_nat (2 ^ 29)))
  /\ ~ round_trips first_marshaller (repeat 0 (Z.to_nat (2 ^ 29))).
Proof.
  split.
  - apply Forall_forall. intros x Hx.
    apply list_elem_of_In, repeat_spec in Hx. subst x.
    unfold is_float64. split; [lia | reflexivity].
  - intros (frame & Hm & _). rewrite marshal_data_too_long in Hm. discriminate.
Qed.

(** C7 (as amended).  For every sequence of fewer than 2^29 float64 values,
    the empty one included, marshalled by a marshaller whose topology id
    fits the header's unsigned 32-bit field, [marshal_data] returns exactly
    [16 + 8 * len(values)] bytes, and the header's [payload_size] field is
    [8 * len(values)]. *)
Theorem C7_frame_size (self : PythonMarshaller.t) (data : list float) :
  len data < 2 ^ 29 ->
  0 <= PythonMarshaller.topology_id self < 2 ^ 32 ->
  frame_sized self data.
Proof.
  intros Hlen Htid. unfold frame_sized.
  pose proof (header_of_to_bytes self data ltac:(lia) Htid) as Hb.
  eexists. exists (PythonMarshaller.header_of self data).
  split; [rewrite marshal_data_run, Hb; reflexivity|].
  split; [|split].
  - rewrite len_app, len_pack_d. reflexivity.
  - apply from_to_bytes. exact Hb.
  - cbn [PythonMarshaller.header_of MarshalHeader.payload_size]. apply len_pack_d.
Qed.

(** An empty input gives a 16-byte frame with [payload_size = 0]. *)
Lemma C7_frame_size_witness :
  frame_sized first_marshaller []
  /\ frame_sized first_marshaller [4607182418800017408; 4612811918334230528].
Proof.
  split; apply C7_frame_size;
    solve [reflexivity | split; [discriminate | reflexivity]].
Defined.

(** C7, as stated, fails: 2^29 values give no frame at all, since the
    payload size 2^32 does not fit the header field. *)
Lemma C7_counterexample :
  ~ frame_sized first_marshaller (repeat 0 (Z.to_nat (2 ^ 29))).
Proof.
  intros (frame & h & Hm & _). rewrite marshal_data_too_long in Hm. discriminate.
Qed.

(** ** Tampering with the payload *)

Section Tamper.
Import MarshalHeader PythonMarshaller.

Variable self : PythonMarshaller.t.

Lemma tamper_frame (header_bytes payload : bytes) (i : nat) (b : byte) :
  length header_bytes = 16%nat ->
  tamper (header_bytes ++ payload) i b = header_bytes ++ <[i := b]> payload.
Proof.
  intros H16. unfold tamper. rewrite <- H16. apply insert_app_r.
Qed.

(** What unmarshalling a tampered frame does: the checksum of the changed
    payload is compared with the one in the header. *)
Lemma unmarshal_data_tampered (data : list float) (frame : bytes)
      (i : nat) (b : byte) :
  outcome (marshal_data self data) = Ok frame ->
  outcome (unmarshal_data self (tamper frame i b))
  = if SecurityValidator.sha256_prefix (struct.pack_d data)
       =? SecurityValidator.sha256_prefix (<[i := b]> (struct.pack_d data))
    then Ok (struct.decode_d (length data) (<[i := b]> (struct.pack_d data)))
    else Raise (SecurityError ChecksumFailed).
Proof.
  intros Hm. destruct (marshal_data_frame self _ _ Hm) as (hb & Hb & H16 & -> & _).
  rewrite tamper_frame by exact H16.
  rewrite (unmarshal_data_frame self (header_of self data) hb _ (length data) Hb).
  - reflexivity.
  - reflexivity.
  - unfold header_of, len. cbn [payload_size]. rewrite length_insert. reflexivity.
  - rewrite length_insert. apply length_pack_d.
Qed.

(** A changed payload never decodes to the original values. *)
Lemma tampered_values_differ (data : list float) (i : nat) (b0 b : byte) :
  Forall is_float64 data ->
  struct.pack_d data !! i = Some b0 -> b <> b0 ->
  struct.decode_d (length data) (<[i := b]> (struct.pack_d data)) <> data.
Proof.
  intros Hd Hi Hne Heq.
  assert (Hp : <[i := b]> (struct.pack_d data) = struct.pack_d data).
  { apply (decode_d_inj (length data)).
    - rewrite length_insert. apply length_pack_d.
    - apply length_pack_d.
    - rewrite Heq, decode_pack_d by exact Hd. reflexivity. }
  assert (Hi' : <[i := b]> (struct.pack_d data) !! i = Some b).
  { apply list_lookup_insert_eq. eapply lookup_lt_Some. exact Hi. }
  rewrite Hp, Hi in Hi'. congruence.
Qed.

End Tamper.

(** C2 (as amended).  Take a frame produced by [marshal_data], a payload
    position and a byte different from the one there.  Unmarshalling the
    frame with that byte replaced (header untouched) fails with the
    integrity error, unless the truncated SHA-256 digest of the changed
    payload equals the header's checksum; then it returns the values of the
    changed payload.  It never returns the original values. *)
Theorem C2_tamper (self : PythonMarshaller.t) (data : list float) (frame : bytes)
        (i : nat) (b0 b : byte) :
  Forall is_float64 data ->
  outcome (PythonMarshaller.marshal_data self data) = Ok frame ->
  frame !! (16 + i)%nat = Some b0 ->
  b <> b0 ->
  let payload' := <[i := b]> (struct.pack_d data) in
  outcome (PythonMarshaller.unmarshal_data self (tamper frame i b))
  = (if SecurityValidator.sha256_prefix (struct.pack_d data)
        =? SecurityValidator.sha256_prefix payload'
     then Ok (struct.decode_d (length data) payload')
     else Raise (SecurityError ChecksumFailed))
  /\ outcome (PythonMarshaller.unmarshal_data self (tamper frame i b)) <> Ok data.
Proof.
  intros Hd Hm Hi Hne payload'.
  pose proof (unmarshal_data_tampered self data frame i b Hm) as Hu.
  split; [exact Hu|]. rewrite Hu.
  destruct (marshal_data_frame self _ _ Hm) as (hb & _ & H16 & -> & _).
  assert (Hi' : struct.pack_d data !! i = Some b0).
  { rewrite lookup_app_r in Hi by lia.
    rewrite H16 in Hi. replace (16 + i - 16)%nat with i in Hi by lia. exact Hi. }
  destruct (_ =? _); [|discriminate].
  intros [= Heq]. exact (tampered_values_differ data i b0 b Hd Hi' Hne Heq).
Qed.

(** Changing the first payload byte of the frame for [1.0], from [0x00] to
    [0x01], is detected. *)
Lemma C2_tamper_witness :
  let frame := map byte.of_Z
                 [1; 0; 0; 0; 8; 0; 0; 0; 108; 60; 57; 110; 1; 0; 0; 0;
                  0; 0; 0; 0; 0; 0; 240; 63] in
  outcome (PythonMarshaller.unmarshal_data first_marshaller (tamper frame 0 Byte.x01))
  = Raise (SecurityError ChecksumFailed)
  /\ outcome (PythonMarshaller.unmarshal_data first_marshaller (tamper frame 0 Byte.x01))
     <> Ok [4607182418800017408].
Proof.
  intros frame.
  destruct (C2_tamper first_marshaller [4607182418800017408] frame 0
              Byte.x00 Byte.x01) as [Hrun Hne].
  - repeat constructor; unfold is_float64; lia.
  - vm_compute. reflexivity.
  - reflexivity.
  - discriminate.
  - split; [|exact Hne]. rewrite Hrun. vm_compute. reflexivity.
Defined.

(** C2, as stated, fails: the payloads of these two floats (both close to
    1.00000002) differ in their first byte, [0xcd] against [0xc6], and have
    the same truncated digest, so the changed frame is accepted. *)
Lemma C2_counterexample :
  let frame := map byte.of_Z
                 [1; 0; 0; 0; 8; 0; 0; 0; 61; 117; 36; 91; 1; 0; 0; 0;
                  205; 27; 130; 5; 0; 0; 240; 63] in
  outcome (PythonMarshaller.marshal_data first_marshaller [4607182418892430285])
  = Ok frame
  /\ frame !! 16%nat = Some Byte.xcd
  /\ Byte.xc6 <> Byte.xcd
  /\ outcome (PythonMarshaller.unmarshal_data first_marshaller
                (tamper frame 0 Byte.xc6))
     = Ok [4607182418892430278]
  /\ ~ fails_with IntegrityError
         (outcome (PythonMarshaller.unmarshal_data first_marshaller
                     (tamper frame 0 Byte.xc6))).
Proof.
  intros frame.
  assert (H : outcome (PythonMarshaller.unmarshal_data first_marshaller
                         (tamper frame 0 Byte.xc6))
              = Ok [4607182418892430278]) by (vm_compute; reflexivity).
  split; [vm_compute; reflexivity|].
  split; [reflexivity|]. split; [discriminate|].
  split; [exact H|]. rewrite H. exact (fun f => f).
Qed.

(** ** A payload size that is not a multiple of 8 *)




(** ** Frames shorter or longer than the header declares *)

(** Bytes after the declared payload are never looked at. *)
Lemma unmarshal_data_trailing (self : PythonMarshaller.t)
      (marshalled_data extra : bytes) (h : MarshalHeader.t) :
  MarshalHeader.from_bytes marshalled_data = Ok h ->
  16 + MarshalHeader.payload_size h <= len marshalled_data ->
  PythonMarshaller.unmarshal_data self (marshalled_data ++ extra)
  = PythonMarshaller.unmarshal_data self marshalled_data.
Proof.
  intros Hh Hlen. pose proof (from_bytes_fields _ _ Hh) as [Hl [[_ Hp] _]].
  assert (Hh' : MarshalHeader.from_bytes (marshalled_data ++ extra) = Ok h)
    by (rewrite from_bytes_app by exact Hl; exact Hh).
  destruct (Z.eq_dec (MarshalHeader.version h) 1) as [Hv|Hv].
  - rewrite (unmarshal_data_payload self _ h Hh' Hv)
      by (rewrite len_app; pose proof (len_nonneg extra); lia).
    rewrite (unmarshal_data_payload self _ h Hh Hv Hlen).
    rewrite slice_app_within by lia. reflexivity.
  - rewrite (unmarshal_data_version self _ h Hh' Hv).
    rewrite (unmarshal_data_version self _ h Hh Hv). reflexivity.
Qed.

(** C4 (as amended).  A byte string with fewer bytes than its header
    declares -- fewer than 16, or at least 16 but fewer than
    [16 + payload_size] -- makes [unmarshal_data] fail with a format error.
    Bytes beyond [16 + payload_size] are ignored: the result is that of the
    frame without them. *)
Theorem C4_size_disagreement (self : PythonMarshaller.t) (marshalled_data : bytes) :
  (len marshalled_data < 16 ->
   outcome (PythonMarshaller.unmarshal_data self marshalled_data)
   = Raise (SecurityError TooShort))
  /\ (forall h,
        MarshalHeader.from_bytes marshalled_data = Ok h ->
        len marshalled_data < 16 + MarshalHeader.payload_size h ->
        fails_with FormatError
          (outcome (PythonMarshaller.unmarshal_data self marshalled_data)))
  /\ (forall h extra,
        MarshalHeader.from_bytes marshalled_data = Ok h ->
        16 + MarshalHeader.payload_size h <= len marshalled_data ->
        PythonMarshaller.unmarshal_data self (marshalled_data ++ extra)
        = PythonMarshaller.unmarshal_data self marshalled_data).
Proof.
  split; [|split].
  - intros H. rewrite unmarshal_data_short by exact H. reflexivity.
  - intros h Hh Hlen.
    destruct (Z.eq_dec (MarshalHeader.version h) 1) as [Hv|Hv].
    + rewrite (unmarshal_data_truncated self _ h Hh Hv Hlen). reflexivity.
    + rewrite (unmarshal_data_version self _ h Hh Hv). reflexivity.
  - intros h extra Hh Hlen. exact (unmarshal_data_trailing self _ extra h Hh Hlen).
Qed.

(** The frame for [1.0] cut to 15 and to 20 bytes, and the same frame with
    two bytes appended. *)
Lemma C4_size_disagreement_witness :
  let frame := map byte.of_Z
                 [1; 0; 0; 0; 8; 0; 0; 0; 108; 60; 57; 110; 1; 0; 0; 0;
                  0; 0; 0; 0; 0; 0; 240; 63] in
  outcome (PythonMarshaller.unmarshal_data first_marshaller (firstn 15 frame))
  = Raise (SecurityError TooShort)
  /\ fails_with FormatError
       (outcome (PythonMarshaller.unmarshal_data first_marshaller (firstn 20 frame)))
  /\ PythonMarshaller.unmarshal_data first_marshaller (frame ++ [Byte.xff; Byte.xff])
     = PythonMarshaller.unmarshal_data first_marshaller frame.
Proof.
  intros frame. split; [|split].
  - apply (proj1 (C4_size_disagreement first_marshaller (firstn 15 frame))).
    reflexivity.
  - apply (proj1 (proj2 (C4_size_disagreement first_marshaller (firstn 20 frame)))
             (MarshalHeader.Build 1 8 1849244780 1)).
    + reflexivity.
    + reflexivity.
  - apply (proj2 (proj2 (C4_size_disagreement first_marshaller frame))
             (MarshalHeader.Build 1 8 1849244780 1)).
    + reflexivity.
    + discriminate.
Defined.

(** C4, as stated, fails for extra bytes: the empty frame followed by one
    more byte declares 0 payload bytes, has 1, and unmarshals to the empty
    list. *)
Lemma C4_counterexample :
  let frame := map byte.of_Z
                 [1; 0; 0; 0; 0; 0; 0; 0; 227; 176; 196; 66; 1; 0; 0; 0] in
  outcome (PythonMarshaller.marshal_data first_marshaller []) = Ok frame
  /\ MarshalHeader.from_bytes (frame ++ [Byte.x00])
     = Ok (MarshalHeader.Build 1 0 1120186595 1)
  /\ len (frame ++ [Byte.x00]) - 16 <> 0
  /\ outcome (PythonMarshaller.unmarshal_data first_marshaller (frame ++ [Byte.x00]))
     = Ok []
  /\ ~ fails_with FormatError
         (outcome (PythonMarshaller.unmarshal_data first_marshaller
                     (frame ++ [Byte.x00]))).
Proof.
  intros frame.
  assert (H : outcome (PythonMarshaller.unmarshal_data first_marshaller
                         (frame ++ [Byte.x00])) = Ok [])
    by (vm_compute; reflexivity).
  split; [vm_compute; reflexivity|]. split; [vm_compute; reflexivity|].
  split; [discriminate|]. split; [exact H|]. rewrite H. exact (fun f => f).
Qed.

(** ** Header decoding *)

Lemma slice_cat {A : Type} (b : list A) (lo mid hi : Z) :
  0 <= lo -> lo <= mid -> mid <= hi ->
  slice b lo mid ++ slice b mid hi = slice b lo hi.
Proof.
  intros Hlo Hm Hh. unfold slice.
  replace (Z.to_nat mid) with (Z.to_nat lo + Z.to_nat (mid - lo))%nat by lia.
  rewrite <- drop_drop, take_take_drop. f_equal. lia.
Qed.

Lemma split_combine_slice (data : bytes) (lo hi : Z) :
  0 <= lo -> hi = lo + 4 -> hi <= len data ->
  le_split 4 (le_combine (slice data lo hi)) = slice data lo hi.
Proof.
  intros Hlo -> Hlen.
  assert (Hl : length (slice data lo (lo + 4)) = 4%nat).
  { unfold slice, len in *. rewrite length_take, length_drop. lia. }
  rewrite <- Hl at 1. apply split_le_combine.
Qed.

(** Encoding a decoded header gives the sixteen bytes it was decoded from. *)
Lemma to_from_bytes (data : bytes) (h : MarshalHeader.t) :
  MarshalHeader.from_bytes data = Ok h ->
  MarshalHeader.to_bytes h = Ok (slice data 0 16).
Proof.
  intros Hh. pose proof (from_bytes_fields _ _ Hh) as (Hl & [Hv Hp] & [Hc Ht]).
  unfold MarshalHeader.to_bytes. rewrite pack_IIII_Ok by assumption.
  rewrite from_bytes_long in Hh by exact Hl. injection Hh as <-.
  cbn [MarshalHeader.version MarshalHeader.payload_size
       MarshalHeader.checksum MarshalHeader.topology_id].
  rewrite (split_combine_slice data 0 4), (split_combine_slice data 4 8),
          (split_combine_slice data 8 12), (split_combine_slice data 12 16) by lia.
  rewrite (slice_cat data 8 12 16), (slice_cat data 4 8 16), (slice_cat data 0 4 16)
    by lia.
  reflexivity.
Qed.

Section ValidateHeader.
Import SecurityValidator.

Variable self : SecurityValidator.t.

Lemma validate_header_length (header_data : bytes) :
  len header_data <> 16 ->
  validate_header self header_data = (self, Ok INVALID_FORMAT).
Proof.
  intros H. unfold validate_header.
  destruct (Z.eqb_spec (len header_data) 16); [contradiction | reflexivity].
Qed.

Lemma validate_header_16 (header_data : bytes) :
  len header_data = 16 ->
  validate_header self header_data
  = if le_combine (slice header_data 0 4) =? 1
    then (Build (policy self) (_validation_count self + 1), Ok VALID)
    else (self, Ok INVALID_FORMAT).
Proof.
  intros H. unfold validate_header, struct.unpack_IIII. rewrite H.
  cbn [Z.eqb Pos.eqb negb].
  destruct (le_combine (slice header_data 0 4) =? 1); reflexivity.
Qed.

End ValidateHeader.

(** C5 (as amended).  [MarshalHeader.from_bytes] fails (with [struct.error])
    on every byte string shorter than 16 bytes; on 16 bytes or more it
    decodes the first 16 bytes and ignores the rest.  The four fields it
    returns are the unsigned 32-bit little-endian integers at offsets 0, 4, 8
    and 12, and encoding them gives those 16 bytes back.
    [SecurityValidator.validate_header] returns [INVALID_FORMAT] on every
    byte string whose length is not exactly 16, and on 16 bytes it returns
    [VALID] exactly when the version field is 1. *)
Theorem C5_header_decoding (v : SecurityValidator.t) (data : bytes) :
  (len data < 16 -> MarshalHeader.from_bytes data = Raise struct_error)
  /\ (16 <= len data ->
      let h := MarshalHeader.Build
                 (le_combine (slice data 0 4)) (le_combine (slice data 4 8))
                 (le_combine (slice data 8 12)) (le_combine (slice data 12 16)) in
      MarshalHeader.from_bytes data = Ok h
      /\ MarshalHeader.to_bytes h = Ok (slice data 0 16)
      /\ (0 <= MarshalHeader.version h < 2 ^ 32
          /\ 0 <= MarshalHeader.payload_size h < 2 ^ 32)
      /\ (0 <= MarshalHeader.checksum h < 2 ^ 32
          /\ 0 <= MarshalHeader.topology_id h < 2 ^ 32))
  /\ (len data <> 16 ->
      SecurityValidator.validate_header v data
      = (v, Ok SecurityValidator.INVALID_FORMAT))
  /\ (len data = 16 ->
      forall h, MarshalHeader.from_bytes data = Ok h ->
      snd (SecurityValidator.validate_header v data)
      = Ok (if MarshalHeader.version h =? 1
            then SecurityValidator.VALID else SecurityValidator.INVALID_FORMAT)).
Proof.
  split; [|split; [|split]].
  - apply from_bytes_short.
  - intros Hl h. pose proof (from_bytes_long data Hl) as Hh. fold h in Hh.
    split; [exact Hh|]. split; [exact (to_from_bytes _ _ Hh)|].
    exact (proj2 (from_bytes_fields _ _ Hh)).
  - apply validate_header_length.
  - intros H16 h Hh. rewrite validate_header_16 by exact H16.
    rewrite from_bytes_long in Hh by lia. injection Hh as <-.
    cbn [MarshalHeader.version].
    destruct (le_combine (slice data 0 4) =? 1); reflexivity.
Qed.

(** A 15-byte string, the 16-byte header of the frame for [1.0], and that
    header followed by its payload. *)
Lemma C5_header_decoding_witness :
  let header := map byte.of_Z
                  [1; 0; 0; 0; 8; 0; 0; 0; 108; 60; 57; 110; 1; 0; 0; 0] in
  let v := SecurityValidator.__init__ None in
  MarshalHeader.from_bytes (firstn 15 header) = Raise struct_error
  /\ MarshalHeader.from_bytes header = Ok (MarshalHeader.Build 1 8 1849244780 1)
  /\ SecurityValidator.validate_header v (firstn 15 header)
     = (v, Ok SecurityValidator.INVALID_FORMAT)
  /\ snd (SecurityValidator.validate_header v header) = Ok SecurityValidator.VALID.
Proof.
  intros header v. split; [|split; [|split]].
  - apply (proj1 (C5_header_decoding v (firstn 15 header))). reflexivity.
  - apply (proj1 (proj2 (C5_header_decoding v header))). discriminate.
  - apply (proj1 (proj2 (proj2 (C5_header_decoding v (firstn 15 header))))).
    discriminate.
  - apply (proj2 (proj2 (proj2 (C5_header_decoding v header))) eq_refl
             (MarshalHeader.Build 1 8 1849244780 1)).
    reflexivity.
Defined.

(** C5, as stated, fails for [from_bytes] on more than 16 bytes: a whole
    24-byte frame is not exactly 16 bytes long, and its header decodes. *)
Lemma C5_counterexample :
  let frame := map byte.of_Z
                 [1; 0; 0; 0; 8; 0; 0; 0; 108; 60; 57; 110; 1; 0; 0; 0;
                  0; 0; 0; 0; 0; 0; 240; 63] in
  len frame <> 16
  /\ MarshalHeader.from_bytes frame = Ok (MarshalHeader.Build 1 8 1849244780 1)
  /\ ~ (exists e, MarshalHeader.from_bytes frame = Raise e).
Proof.
  intros frame. split; [discriminate|]. split; [reflexivity|].
  intros [e He]. vm_compute in He. discriminate.
Qed.

(** ** The two digests of the validator *)

Lemma fold_left_add (l : list Z) (a : Z) :
  fold_left Z.add l a = a + fold_right Z.add 0 l.
Proof.
  revert a. induction l as [|x l IH]; intros a; cbn [fold_left fold_right].
  - lia.
  - rewrite IH. lia.
Qed.

(** The code's [sum(payload) & 0xFFFFFFFF] is the byte sum modulo 2^32. *)
Lemma byte_sum_spec (payload : bytes) :
  SecurityValidator.byte_sum payload = spec_fast_digest payload.
Proof.
  unfold SecurityValidator.byte_sum, spec_fast_digest.
  change 4294967295 with (Z.ones 32). rewrite Z.land_ones by lia.
  f_equal. rewrite fold_left_add, Z.add_0_l.
  induction payload as [|b payload IH]; [reflexivity|].
  cbn [map fold_right]. rewrite IH. reflexivity.
Qed.

Lemma le_combine_cons (b : byte) (t : bytes) :
  le_combine (b :: t) = byte.unsigned b + 2 ^ 8 * le_combine t.
Proof.
  change (le_combine (b :: t))
    with (Z.lor (byte.unsigned b) (Z.shiftl (le_combine t) 8)).
  assert (H0 : Z.land (byte.unsigned b) (Z.shiftl (le_combine t) 8) = 0).
  { apply Z.bits_inj'. intros n Hn.
    rewrite Z.land_spec, Z.bits_0.
    destruct (Z.lt_ge_cases n 8) as [Hlt|Hge].
    - rewrite Z.shiftl_spec_low by exact Hlt. apply andb_false_r.
    - rewrite <- (Z.mod_small (byte.unsigned b) (2 ^ 8)) by apply byte.unsigned_range.
      rewrite Z.mod_pow2_bits_high by lia. reflexivity. }
  rewrite <- (Z.lxor_lor _ _ H0), <- (Z.add_nocarry_lxor _ _ H0).
  rewrite Z.shiftl_mul_pow2 by lia. lia.
Qed.

(** The code's [struct.unpack('<I', digest[:4])[0]] is the little-endian
    reading of the first four digest bytes. *)
Lemma sha256_prefix_spec (payload : bytes) :
  SecurityValidator.sha256_prefix payload = spec_strong_digest payload.
Proof.
  unfold SecurityValidator.sha256_prefix, spec_strong_digest, struct.unpack_I.
  pose proof (sha256_length payload) as Hl.
  destruct (hashlib.sha256 payload) as [|b0 [|b1 [|b2 [|b3 rest]]]];
    try discriminate Hl.
  rewrite slice_prefix. change (Z.to_nat 4) with 4%nat. cbn [firstn].
  rewrite !le_combine_cons, take_0, le_combine_nil. lia.
Qed.

(** C6.  [validate_payload] answers [VALID] when the expected checksum
    equals the digest of the payload and [INVALID_CHECKSUM] otherwise, where
    the digest is, under [BASIC], the sum of the payload bytes as unsigned
    integers modulo 2^32 and, under [STANDARD] and [ENHANCED], the
    little-endian reading of the first four bytes of the SHA-256 hash of the
    payload.  The answer depends on the level, the payload and the expected
    checksum only, and the checksum the marshaller puts in a header is the
    [STANDARD]/[ENHANCED] digest of the frame's payload bytes. *)
Theorem C6_validate_payload :
  (forall (self : SecurityValidator.t) (payload : bytes) (expected : Z),
      SecurityValidator.validate_payload self payload expected
      = (self,
         if spec_digest (SecurityValidator.level (SecurityValidator.policy self)) payload
            =? expected
         then SecurityValidator.VALID else SecurityValidator.INVALID_CHECKSUM))
  /\ (forall (v1 v2 : SecurityValidator.t) (payload : bytes) (expected : Z),
        SecurityValidator.level (SecurityValidator.policy v1)
        = SecurityValidator.level (SecurityValidator.policy v2) ->
        snd (SecurityValidator.validate_payload v1 payload expected)
        = snd (SecurityValidator.validate_payload v2 payload expected))
  /\ (forall (m : PythonMarshaller.t) (data : list float),
        PythonMarshaller._compute_checksum data
        = spec_digest SecurityValidator.STANDARD (struct.pack_d data)
        /\ PythonMarshaller._compute_checksum data
           = spec_digest SecurityValidator.ENHANCED (struct.pack_d data)
        /\ forall frame,
            outcome (PythonMarshaller.marshal_data m data) = Ok frame ->
            exists h,
              MarshalHeader.from_bytes frame = Ok h
              /\ slice frame 16 (16 + MarshalHeader.payload_size h) = struct.pack_d data
              /\ MarshalHeader.checksum h
                 = spec_strong_digest (slice frame 16 (16 + MarshalHeader.payload_size h))).
Proof.
  assert (Hrun : forall self payload expected,
             SecurityValidator.validate_payload self payload expected
             = (self,
                if spec_digest (SecurityValidator.level (SecurityValidator.policy self))
                     payload =? expected
                then SecurityValidator.VALID else SecurityValidator.INVALID_CHECKSUM)).
  { intros self payload expected. unfold SecurityValidator.validate_payload, spec_digest.
    destruct (SecurityValidator.level (SecurityValidator.policy self));
      rewrite ?byte_sum_spec, ?sha256_prefix_spec;
      destruct (_ =? expected); reflexivity. }
  split; [exact Hrun|]. split.
  - intros v1 v2 payload expected Hlevel. rewrite !Hrun, Hlevel. reflexivity.
  - intros m data.
    assert (Hc : PythonMarshaller._compute_checksum data
                 = spec_strong_digest (struct.pack_d data))
      by (rewrite compute_checksum_prefix; apply sha256_prefix_spec).
    split; [exact Hc|]. split; [exact Hc|].
    intros frame Hm.
    destruct (marshal_data_frame m _ _ Hm) as (hb & Hb & H16 & -> & _).
    exists (PythonMarshaller.header_of m data).
    split; [apply from_to_bytes; exact Hb|].
    cbn [PythonMarshaller.header_of MarshalHeader.payload_size MarshalHeader.checksum].
    rewrite slice_payload by exact H16. split; [reflexivity | exact Hc].
Qed.

(** The frame for [1.0] carries the strong digest of its eight payload
    bytes; a validator at the default level accepts it, one at [BASIC]
    compares against the byte sum [0xf0 + 0x3f]. *)
Lemma C6_validate_payload_witness :
  let payload := map byte.of_Z [0; 0; 0; 0; 0; 0; 240; 63] in
  snd (SecurityValidator.validate_payload
         (SecurityValidator.__init__ None) payload 1849244780)
  = snd (SecurityValidator.validate_payload
           (SecurityValidator.Build
              (SecurityValidator.Policy SecurityValidator.STANDARD 60) 7)
           payload 1849244780)
  /\ SecurityValidator.validate_payload
       (SecurityValidator.__init__
          (Some (SecurityValidator.Policy SecurityValidator.BASIC 3600)))
       payload 303
     = (SecurityValidator.__init__
          (Some (SecurityValidator.Policy SecurityValidator.BASIC 3600)),
        SecurityValidator.VALID).
Proof.
  intros payload. split.
  - apply (proj1 (proj2 C6_validate_payload)). reflexivity.
  - rewrite (proj1 C6_validate_payload). reflexivity.
Defined.

(** ** [TopologyManager] *)

Section Topology.
Import TopologyManager.

Lemma registered_init : registered __init__ 0.
Proof.
  split.
  - apply map_size_empty.
  - intros k. cbn [__init__ _nodes]. rewrite lookup_empty. split.
    + intros [x Hx]. discriminate.
    + lia.
  - apply map_Forall_empty.
  - reflexivity.
Qed.

(** Registering on a manager with [n] nodes returns [n + 1]. *)
Lemma register_node_registered (self : t) (n : nat) (ty : string) (now : float) :
  registered self n ->
  snd (register_node self ty now) = Z.of_nat (S n)
  /\ registered (fst (register_node self ty now)) (S n).
Proof.
  intros [Hsize Hids Hact Hloc].
  assert (Hid : len_map (_nodes self) + 1 = Z.of_nat (S n))
    by (unfold len_map; rewrite Hsize; lia).
  assert (Hfresh : _nodes self !! Z.of_nat (S n) = None).
  { destruct (_nodes self !! Z.of_nat (S n)) eqn:E; [|reflexivity].
    assert (Hs : is_Some (_nodes self !! Z.of_nat (S n))) by (rewrite E; eauto).
    apply Hids in Hs. lia. }
  unfold register_node. cbn [fst snd]. rewrite Hid.
  split; [reflexivity|]. split; cbn [_nodes _local_node_id].
  - rewrite map_size_insert_None by exact Hfresh. rewrite Hsize. reflexivity.
  - intros k. rewrite lookup_insert_is_Some, Hids. lia.
  - apply map_Forall_insert_2; [reflexivity | exact Hact].
  - rewrite Hloc. destruct n; [reflexivity | reflexivity].
Qed.

(** A heartbeat changes neither the ids nor the states. *)
Lemma update_heartbeat_registered (self : t) (n : nat) (i : Z) (now : float) :
  registered self n -> registered (update_heartbeat self i now) n.
Proof.
  intros [Hsize Hids Hact Hloc]. unfold update_heartbeat.
  destruct (_nodes self !! i) as [node|] eqn:E; [|split; assumption].
  split; cbn [_nodes _local_node_id].
  - rewrite map_size_insert_Some by (rewrite E; eauto). exact Hsize.
  - intros k. rewrite lookup_insert_is_Some, <- Hids.
    split; [intros [<-|[_ H]]; [rewrite E; eauto | exact H] |].
    intros H. destruct (decide (i = k)); [left | right]; tauto.
  - apply map_Forall_insert_2; [|exact Hact].
    cbn [state]. exact (Hact i node E).
  - exact Hloc.
Qed.

Lemma serve_registered (self : t) (n : nat) (r : request) :
  registered self n -> registered (serve self r) (n + registrations [r]).
Proof.
  intros H. destruct r as [ty now|i now| |]; cbn [serve registrations].
  - rewrite Nat.add_1_r. apply register_node_registered. exact H.
  - rewrite Nat.add_0_r. apply update_heartbeat_registered. exact H.
  - rewrite Nat.add_0_r. exact H.
  - rewrite Nat.add_0_r. exact H.
Qed.

Lemma registrations_cons (r : request) (rs : list request) :
  registrations (r :: rs) = (registrations [r] + registrations rs)%nat.
Proof. destruct r; reflexivity. Qed.

Lemma fold_serve_registered (rs : list request) (self : t) (n : nat) :
  registered self n ->
  registered (fold_left serve rs self) (n + registrations rs).
Proof.
  revert self n. induction rs as [|r rs IH]; intros self n H.
  - cbn [fold_left registrations]. rewrite Nat.add_0_r. exact H.
  - cbn [fold_left]. rewrite registrations_cons, Nat.add_assoc.
    apply IH, serve_registered, H.
Qed.

(** Every manager a sequence of calls leads to. *)
Lemma after_registered (rs : list request) :
  registered (after rs) (registrations rs).
Proof. exact (fold_serve_registered rs __init__ 0 registered_init). Qed.

Lemma registered_ids_from (rs : list request) (self : t) (n : nat) :
  registered self n ->
  registered_ids self rs = map Z.of_nat (seq (S n) (registrations rs)).
Proof.
  revert self n. induction rs as [|r rs IH]; intros self n H; [reflexivity|].
  destruct r as [ty now|i now| |]; cbn [registered_ids registrations serve].
  - destruct (register_node_registered self n ty now H) as [Hid Hreg].
    destruct (register_node self ty now) as [self' node_id].
    cbn [fst snd] in Hid, Hreg. subst node_id.
    cbn [seq map]. f_equal. exact (IH self' (S n) Hreg).
  - exact (IH _ n (update_heartbeat_registered self n i now H)).
  - exact (IH self n H).
  - exact (IH self n H).
Qed.

Lemma filter_all {A : Type} (P : A -> Prop) `{forall x, Decision (P x)} (l : list A) :
  Forall P l -> filter P l = l.
Proof.
  induction 1 as [|x l Hx _ IH]; [reflexivity|].
  rewrite filter_cons_True by exact Hx. rewrite IH. reflexivity.
Qed.

(** With every node active, the summary counts them all. *)
Lemma summary_all_active (self : t) :
  map_Forall (fun _ node => state node = ACTIVE) (_nodes self) ->
  active_nodes (get_topology_summary self) = total_nodes (get_topology_summary self).
Proof.
  intros Hact. unfold get_topology_summary. cbn [active_nodes total_nodes].
  rewrite filter_all.
  - unfold len, len_map. rewrite length_map, length_map_to_list. reflexivity.
  - apply Forall_forall. intros node Hn.
    apply list_elem_of_In, in_map_iff in Hn. destruct Hn as ([k node'] & <- & Hin).
    apply list_elem_of_In, elem_of_map_to_list in Hin. exact (Hact k node' Hin).
Qed.

End Topology.

(** C8.  On one manager, whatever other calls come in between, the
    [register_node] calls return 1, 2, 3, ... in call order: unique, strictly
    increasing, starting at 1, without gaps.  The local node id is unset
    before the first registration and is 1, the first id, from then on; no
    registration replaces a local node id that is set. *)
Theorem C8_node_ids (rs : list TopologyManager.request) :
  TopologyManager.registered_ids TopologyManager.__init__ rs
  = map Z.of_nat (seq 1 (TopologyManager.registrations rs))
  /\ TopologyManager.get_local_node_id (TopologyManager.after rs)
     = match TopologyManager.registrations rs with O => None | S _ => Some 1 end
  /\ forall self l ty now,
      TopologyManager.get_local_node_id self = Some l ->
      TopologyManager.get_local_node_id
        (fst (TopologyManager.register_node self ty now)) = Some l.
Proof.
  split; [|split].
  - exact (registered_ids_from rs _ 0 registered_init).
  - exact (TopologyManager.reg_local _ _ (after_registered rs)).
  - intros self l ty now Hl.
    unfold TopologyManager.get_local_node_id, TopologyManager.register_node in *.
    cbn [fst TopologyManager._local_node_id]. rewrite Hl. reflexivity.
Qed.

(** Three registrations with a heartbeat and a summary in between. *)
Lemma C8_node_ids_witness :
  let rs := [TopologyManager.req_register_node "python" 0;
             TopologyManager.req_update_heartbeat 1 5;
             TopologyManager.req_register_node "java" 7;
             TopologyManager.req_get_topology_summary;
             TopologyManager.req_register_node "c" 9] in
  TopologyManager.registered_ids TopologyManager.__init__ rs = [1; 2; 3]
  /\ TopologyManager.get_local_node_id (TopologyManager.after rs) = Some 1
  /\ TopologyManager.get_local_node_id
       (fst (TopologyManager.register_node (TopologyManager.after rs) "go" 11))
     = Some 1.
Proof.
  intros rs. split; [|split].
  - exact (proj1 (C8_node_ids rs)).
  - exact (proj1 (proj2 (C8_node_ids rs))).
  - apply (proj2 (proj2 (C8_node_ids rs))).
    exact (proj1 (proj2 (C8_node_ids rs))).
Defined.

(** C10.  In every state a manager reaches by [register_node],
    [update_heartbeat], [get_local_node_id] and [get_topology_summary]
    calls, every stored node is [ACTIVE], and the summary reports as many
    active nodes as nodes. *)
Theorem C10_all_active (rs : list TopologyManager.request) :
  (forall k node,
      TopologyManager._nodes (TopologyManager.after rs) !! k = Some node ->
      TopologyManager.state node = TopologyManager.ACTIVE)
  /\ TopologyManager.active_nodes
       (TopologyManager.get_topology_summary (TopologyManager.after rs))
     = TopologyManager.total_nodes
         (TopologyManager.get_topology_summary (TopologyManager.after rs)).
Proof.
  pose proof (TopologyManager.reg_active _ _ (after_registered rs)) as Hact.
  split; [exact Hact | exact (summary_all_active _ Hact)].
Qed.

(** After two registrations and heartbeats, one for an unknown id. *)
Lemma C10_all_active_witness :
  let rs := [TopologyManager.req_register_node "python" 0;
             TopologyManager.req_register_node "java" 3;
             TopologyManager.req_update_heartbeat 2 5;
             TopologyManager.req_update_heartbeat 9 6] in
  TopologyManager.state (TopologyManager.Node 2 "java" 5 0 TopologyManager.ACTIVE)
  = TopologyManager.ACTIVE
  /\ TopologyManager.get_topology_summary (TopologyManager.after rs)
     = TopologyManager.Summary 2 2 (Some 1).
Proof.
  intros rs. split.
  - apply (proj1 (C10_all_active rs) 2). vm_compute. reflexivity.
  - pose proof (proj2 (C10_all_active rs)) as H.
    vm_compute in H |- *. reflexivity.
Defined.

(** ** The validation counter *)

Section Counter.
Import SecurityValidator.

(** [validate_payload] never touches the validator. *)
Lemma validate_payload_state (self : t) (payload : bytes) (expected : Z) :
  fst (validate_payload self payload expected) = self.
Proof.
  unfold validate_payload. destruct (negb _); reflexivity.
Qed.

(** [validate_header] counts a call only when it answers [VALID]. *)
Lemma validate_header_count (self : t) (header_data : bytes) :
  _validation_count (fst (validate_header self header_data))
  = match snd (validate_header self header_data) with
    | Ok VALID => _validation_count self + 1
    | _ => _validation_count self
    end.
Proof.
  unfold validate_header.
  destruct (negb (len header_data =? 16)); [reflexivity|].
  destruct (struct.unpack_IIII header_data) as [[[[version ps] cs] tid]|e];
    [|reflexivity].
  destruct (negb (version =? 1)); reflexivity.
Qed.

(** [validate_header] never raises: it unpacks only after checking the
    length. *)
Lemma validate_header_total (self : t) (header_data : bytes) :
  exists r, snd (validate_header self header_data) = Ok r.
Proof.
  destruct (Z.eq_dec (len header_data) 16) as [H16|Hne].
  - rewrite validate_header_16 by exact H16.
    destruct (_ =? 1); eauto.
  - rewrite validate_header_length by exact Hne. eauto.
Qed.

End Counter.

(** C9 (the code departs from it).  On a new validator, a [validate_payload]
    call that answers [VALID] and a [validate_header] call that answers
    [INVALID_FORMAT] leave [validation_count] at 0, although two validation
    calls were made. *)
Theorem C9_counter_misses_calls :
  let v0 := SecurityValidator.__init__ None in
  let calls := [SecurityValidator.req_validate_payload [] 1120186595;
                SecurityValidator.req_validate_header []] in
  SecurityValidator.validate_payload v0 [] 1120186595 = (v0, SecurityValidator.VALID)
  /\ SecurityValidator.validate_header v0 []
     = (v0, Ok SecurityValidator.INVALID_FORMAT)
  /\ SecurityValidator.validation_count
       (SecurityValidator.get_statistics (fold_left SecurityValidator.serve calls v0))
     = 0
  /\ len calls = 2.
Proof.
  intros v0 calls. split; [|split; [|split]].
  - vm_compute. reflexivity.
  - reflexivity.
  - vm_compute. reflexivity.
  - reflexivity.
Qed.

(** * Further properties of the code *)

(** ** The header codec *)

(** X1.  [to_bytes] returns sixteen bytes when the four fields are unsigned
    32-bit integers, and raises [struct.error] as soon as one is not. *)
Theorem X1_to_bytes_range (h : MarshalHeader.t) :
  let fits (v : Z) := 0 <= v < 2 ^ 32 in
  (fits (MarshalHeader.version h) /\ fits (MarshalHeader.payload_size h)
   /\ fits (MarshalHeader.checksum h) /\ fits (MarshalHeader.topology_id h) ->
   exists header_bytes,
     MarshalHeader.to_bytes h = Ok header_bytes /\ len header_bytes = 16)
  /\ (~ (fits (MarshalHeader.version h) /\ fits (MarshalHeader.payload_size h)
         /\ fits (MarshalHeader.checksum h) /\ fits (MarshalHeader.topology_id h)) ->
      MarshalHeader.to_bytes h = Raise struct_error).
Proof.
  intros fits. unfold fits. split.
  - intros (Hv & Hp & Hc & Ht). eexists. split.
    + unfold MarshalHeader.to_bytes. apply pack_IIII_Ok; assumption.
    + reflexivity.
  - intros Hno. unfold MarshalHeader.to_bytes, struct.pack_IIII.
    destruct (_ && _) eqn:E; [|reflexivity].
    rewrite !andb_true_iff, !fits_I_spec in E. tauto.
Qed.

Lemma X1_to_bytes_range_witness :
  (exists header_bytes,
      MarshalHeader.to_bytes (MarshalHeader.Build 1 8 1849244780 1) = Ok header_bytes
      /\ len header_bytes = 16)
  /\ MarshalHeader.to_bytes (MarshalHeader.Build 1 (2 ^ 32) 0 1) = Raise struct_error
  /\ MarshalHeader.to_bytes (MarshalHeader.Build 1 8 0 (-1)) = Raise struct_error.
Proof.
  split; [|split].
  - apply (proj1 (X1_to_bytes_range (MarshalHeader.Build 1 8 1849244780 1))).
    cbn. lia.
  - apply (proj2 (X1_to_bytes_range (MarshalHeader.Build 1 (2 ^ 32) 0 1))).
    cbn. lia.
  - apply (proj2 (X1_to_bytes_range (MarshalHeader.Build 1 8 0 (-1)))).
    cbn. lia.
Defined.

(** X2.  Decoding an encoded header gives the header back, whatever bytes
    follow the sixteen encoded ones. *)
Theorem X2_header_round_trip (h : MarshalHeader.t) (header_bytes rest : bytes) :
  MarshalHeader.to_bytes h = Ok header_bytes ->
  MarshalHeader.from_bytes (header_bytes ++ rest) = Ok h.
Proof. apply from_to_bytes. Qed.

Lemma X2_header_round_trip_witness :
  MarshalHeader.from_bytes
    (map byte.of_Z [1; 0; 0; 0; 8; 0; 0; 0; 108; 60; 57; 110; 1; 0; 0; 0]
       ++ [Byte.xaa; Byte.xbb])
  = Ok (MarshalHeader.Build 1 8 1849244780 1).
Proof.
  apply (X2_header_round_trip (MarshalHeader.Build 1 8 1849244780 1)).
  reflexivity.
Defined.

(** ** [marshal_data] and [unmarshal_data] *)

(** X3.  [marshal_data] raises [struct.error] exactly when the list has
    2^29 values or more, or the marshaller's topology id is not an unsigned
    32-bit integer; it never raises [SecurityError], and in every run it
    packs the payload, computes the checksum and packs the header, in this
    order. *)
Theorem X3_marshal_data_failure (self : PythonMarshaller.t) (data : list float) :
  (outcome (PythonMarshaller.marshal_data self data) = Raise struct_error
   <-> 2 ^ 29 <= len data
       \/ ~ 0 <= PythonMarshaller.topology_id self < 2 ^ 32)
  /\ (forall msg,
         outcome (PythonMarshaller.marshal_data self data) <> Raise (SecurityError msg))
  /\ trace (PythonMarshaller.marshal_data self data)
     = [call_struct_pack_payload; call_compute_checksum; call_to_bytes].
Proof.
  rewrite marshal_data_run. unfold outcome, trace. cbn [fst snd].
  pose proof (compute_checksum_range data) as Hc.
  pose proof (len_nonneg data) as Hn.
  pose proof (len_pack_d data) as Hp.
  destruct (MarshalHeader.to_bytes (PythonMarshaller.header_of self data))
    as [hb|e] eqn:E; unfold MarshalHeader.to_bytes in E.
  - apply pack_IIII_fits in E.
    cbn [PythonMarshaller.header_of MarshalHeader.version MarshalHeader.payload_size
         MarshalHeader.checksum MarshalHeader.topology_id] in E.
    split; [|split; [discriminate | reflexivity]].
    split; [discriminate | lia].
  - unfold struct.pack_IIII in E. destruct (_ && _) eqn:F in E; [discriminate|].
    injection E as <-. split; [|split; [discriminate | reflexivity]].
    split; [|reflexivity]. intros _.
    cbn [PythonMarshaller.header_of MarshalHeader.version MarshalHeader.payload_size
         MarshalHeader.checksum MarshalHeader.topology_id] in F.
    destruct (Z.lt_ge_cases (len data) (2 ^ 29)) as [Hlt|Hge]; [|left; exact Hge].
    right. intros Htid.
    assert (Hfit : struct.fits_I 1 && struct.fits_I (len (struct.pack_d data))
                   && struct.fits_I (PythonMarshaller._compute_checksum data)
                   && struct.fits_I (PythonMarshaller.topology_id self) = true).
    { rewrite !andb_true_iff, !fits_I_spec. lia. }
    rewrite Hfit in F. discriminate.
Qed.

Lemma X3_marshal_data_failure_witness :
  outcome (PythonMarshaller.marshal_data (PythonMarshaller.Build 1024 (2 ^ 32)) [0])
  = Raise struct_error.
Proof.
  apply (proj1 (X3_marshal_data_failure (PythonMarshaller.Build 1024 (2 ^ 32)) [0])).
  right. cbn. lia.
Defined.

(** X4.  A frame carries the topology id of the marshaller that made it,
    and any marshaller unmarshals it: [unmarshal_data] looks neither at its
    own topology id nor at the one in the header. *)
Theorem X4_any_marshaller_reads (m1 m2 : PythonMarshaller.t)
        (data : list float) (frame : bytes) :
  Forall is_float64 data ->
  outcome (PythonMarshaller.marshal_data m1 data) = Ok frame ->
  outcome (PythonMarshaller.unmarshal_data m2 frame) = Ok data
  /\ exists h,
      MarshalHeader.from_bytes frame = Ok h
      /\ MarshalHeader.version h = 1
      /\ MarshalHeader.topology_id h = PythonMarshaller.topology_id m1.
Proof.
  intros Hd Hm. destruct (marshal_data_frame m1 _ _ Hm) as (hb & Hb & H16 & -> & _).
  split.
  - rewrite (unmarshal_data_frame m2 (PythonMarshaller.header_of m1 data) hb _
               (length data) Hb); [| reflexivity | reflexivity | apply length_pack_d].
    cbn [PythonMarshaller.header_of MarshalHeader.checksum outcome snd].
    rewrite compute_checksum_prefix, Z.eqb_refl, decode_pack_d by exact Hd.
    reflexivity.
  - exists (PythonMarshaller.header_of m1 data).
    split; [apply from_to_bytes; exact Hb|]. split; reflexivity.
Qed.

Lemma X4_any_marshaller_reads_witness :
  let frame := map byte.of_Z
                 [1; 0; 0; 0; 8; 0; 0; 0; 108; 60; 57; 110; 7; 0; 0; 0;
                  0; 0; 0; 0; 0; 0; 240; 63] in
  outcome (PythonMarshaller.unmarshal_data first_marshaller frame)
  = Ok [4607182418800017408].
Proof.
  intros frame.
  apply (X4_any_marshaller_reads (PythonMarshaller.Build 1024 7) first_marshaller).
  - repeat constructor; unfold is_float64; lia.
  - vm_compute. reflexivity.
Defined.

(** X5.  A byte string of at least 16 bytes whose version field is not 1 is
    rejected with "Invalid version", whatever its size and checksum fields
    and its payload: after parsing the header nothing else is looked at. *)
Theorem X5_version_rejected (self : PythonMarshaller.t) (marshalled_data : bytes) :
  16 <= len marshalled_data ->
  le_combine (slice marshalled_data 0 4) <> 1 ->
  PythonMarshaller.unmarshal_data self marshalled_data
  = ([call_from_bytes],
     Raise (SecurityError (InvalidVersion (le_combine (slice marshalled_data 0 4))))).
Proof.
  intros Hl Hv.
  rewrite (unmarshal_data_version self _ _ (from_bytes_long _ Hl)) by exact Hv.
  reflexivity.
Qed.

(** The frame for [1.0] with version 2. *)
Lemma X5_version_rejected_witness :
  PythonMarshaller.unmarshal_data first_marshaller
    (map byte.of_Z [2; 0; 0; 0; 8; 0; 0; 0; 108; 60; 57; 110; 1; 0; 0; 0;
                    0; 0; 0; 0; 0; 0; 240; 63])
  = ([call_from_bytes], Raise (SecurityError (InvalidVersion 2))).
Proof.
  apply (X5_version_rejected first_marshaller); [discriminate | discriminate].
Defined.

Lemma div_8_exact (n : Z) : n mod 8 = 0 -> n = 8 * (n / 8).
Proof. intros H. pose proof (Z.div_mod n 8 ltac:(lia)). lia. Qed.

(** When [unmarshal_data] returns, in terms of the bytes it was given. *)
Lemma unmarshal_data_Ok_iff (self : PythonMarshaller.t) (marshalled_data : bytes)
      (data : list float) :
  outcome (PythonMarshaller.unmarshal_data self marshalled_data) = Ok data
  <-> exists h,
      MarshalHeader.from_bytes marshalled_data = Ok h
      /\ MarshalHeader.version h = 1
      /\ 16 + MarshalHeader.payload_size h <= len marshalled_data
      /\ MarshalHeader.payload_size h mod 8 = 0
      /\ MarshalHeader.checksum h
         = SecurityValidator.sha256_prefix
             (slice marshalled_data 16 (16 + MarshalHeader.payload_size h))
      /\ data = struct.decode_d (Z.to_nat (MarshalHeader.payload_size h / 8))
                  (slice marshalled_data 16 (16 + MarshalHeader.payload_size h)).
Proof.
  assert (Hpayload : forall h,
             MarshalHeader.from_bytes marshalled_data = Ok h ->
             MarshalHeader.version h = 1 ->
             16 + MarshalHeader.payload_size h <= len marshalled_data ->
             MarshalHeader.payload_size h mod 8 = 0 ->
             outcome (PythonMarshaller.unmarshal_data self marshalled_data)
             = if MarshalHeader.checksum h
                  =? SecurityValidator.sha256_prefix
                       (slice marshalled_data 16 (16 + MarshalHeader.payload_size h))
               then Ok (struct.decode_d (Z.to_nat (MarshalHeader.payload_size h / 8))
                          (slice marshalled_data 16 (16 + MarshalHeader.payload_size h)))
               else Raise (SecurityError ChecksumFailed)).
  { intros h Hh Hv Hlen Hmod.
    pose proof (from_bytes_fields _ _ Hh) as [Hl [[_ Hp] _]].
    assert (Hpl : len (slice marshalled_data 16 (16 + MarshalHeader.payload_size h))
                  = 8 * (MarshalHeader.payload_size h / 8)).
    { rewrite payload_length by lia. rewrite <- div_8_exact by exact Hmod. lia. }
    rewrite (unmarshal_data_payload self _ h Hh Hv Hlen).
    rewrite unpack_d_Ok by exact Hpl. cbn [outcome snd].
    rewrite compute_checksum_prefix, pack_decode_d; [reflexivity|].
    unfold len in Hpl. lia. }
  split.
  - intros Hok.
    destruct (Z.lt_ge_cases (len marshalled_data) 16) as [Hs|Hl].
    { rewrite unmarshal_data_short in Hok by exact Hs. discriminate. }
    pose proof (from_bytes_long _ Hl) as Hh.
    set (h := MarshalHeader.Build _ _ _ _) in Hh.
    pose proof (from_bytes_fields _ _ Hh) as [_ [[_ Hp] _]].
    destruct (Z.eq_dec (MarshalHeader.version h) 1) as [Hv|Hv];
      [|rewrite (unmarshal_data_version self _ h Hh Hv) in Hok; discriminate].
    destruct (Z.lt_ge_cases (len marshalled_data) (16 + MarshalHeader.payload_size h))
      as [Hlt|Hge];
      [rewrite (unmarshal_data_truncated self _ h Hh Hv Hlt) in Hok; discriminate|].
    destruct (Z.eq_dec (MarshalHeader.payload_size h mod 8) 0) as [Hmod|Hmod].
    + rewrite (Hpayload h Hh Hv Hge Hmod) in Hok.
      destruct (Z.eqb_spec (MarshalHeader.checksum h)
                  (SecurityValidator.sha256_prefix
                     (slice marshalled_data 16 (16 + MarshalHeader.payload_size h))))
        as [Hc|Hc]; [|discriminate].
      injection Hok as <-. exists h. tauto.
    + rewrite (unmarshal_data_payload self _ h Hh Hv Hge) in Hok.
      rewrite unpack_d_error in Hok; [discriminate|].
      rewrite payload_length by lia.
      pose proof (Z.div_mod (MarshalHeader.payload_size h) 8 ltac:(lia)). lia.
  - intros (h & Hh & Hv & Hlen & Hmod & Hc & ->).
    rewrite (Hpayload h Hh Hv Hlen Hmod), Hc, Z.eqb_refl. reflexivity.
Qed.

(** X6.  [unmarshal_data] returns values exactly for the byte strings that
    have 16 bytes or more, version 1, at least as many payload bytes as the
    header declares, a declared size that is a multiple of 8, and a checksum
    field equal to the truncated SHA-256 digest of the raw payload bytes;
    the values are then the decoded payload.  (The code hashes the re-packed
    decoded values; that is the same as hashing the payload bytes.) *)
Theorem X6_accepted_frames (self : PythonMarshaller.t) (marshalled_data : bytes)
        (data : list float) :
  outcome (PythonMarshaller.unmarshal_data self marshalled_data) = Ok data
  <-> exists h,
      MarshalHeader.from_bytes marshalled_data = Ok h
      /\ MarshalHeader.version h = 1
      /\ 16 + MarshalHeader.payload_size h <= len marshalled_data
      /\ MarshalHeader.payload_size h mod 8 = 0
      /\ MarshalHeader.checksum h
         = SecurityValidator.sha256_prefix
             (slice marshalled_data 16 (16 + MarshalHeader.payload_size h))
      /\ data = struct.decode_d (Z.to_nat (MarshalHeader.payload_size h / 8))
                  (slice marshalled_data 16 (16 + MarshalHeader.payload_size h)).
Proof. apply unmarshal_data_Ok_iff. Qed.

Lemma X6_accepted_frames_witness :
  let frame := map byte.of_Z
                 [1; 0; 0; 0; 8; 0; 0; 0; 108; 60; 57; 110; 1; 0; 0; 0;
                  0; 0; 0; 0; 0; 0; 240; 63] in
  outcome (PythonMarshaller.unmarshal_data first_marshaller frame)
  = Ok [4607182418800017408].
Proof.
  intros frame.
  apply (proj2 (X6_accepted_frames first_marshaller frame [4607182418800017408])).
  exists (MarshalHeader.Build 1 8 1849244780 1).
  split; [reflexivity|]. split; [reflexivity|]. split; [discriminate|].
  split; [reflexivity|]. split; vm_compute; reflexivity.
Defined.

(** X7.  What [unmarshal_data] returns marshals back to the bytes it was
    read from: for a marshaller with the topology id of the header,
    [marshal_data(unmarshal_data(frame))] is the frame, without the bytes
    that follow the declared payload. *)
Theorem X7_marshal_what_was_read (self : PythonMarshaller.t) (marshalled_data : bytes)
        (data : list float) (h : MarshalHeader.t) :
  outcome (PythonMarshaller.unmarshal_data self marshalled_data) = Ok data ->
  MarshalHeader.from_bytes marshalled_data = Ok h ->
  PythonMarshaller.topology_id self = MarshalHeader.topology_id h ->
  outcome (PythonMarshaller.marshal_data self data)
  = Ok (slice marshalled_data 0 (16 + MarshalHeader.payload_size h)).
Proof.
  intros Hok Hh Htid.
  apply unmarshal_data_Ok_iff in Hok.
  destruct Hok as (h' & Hh' & Hv & Hlen & Hmod & Hc & ->).
  assert (h' = h) by congruence. subst h'.
  pose proof (from_bytes_fields _ _ Hh) as [Hl [[_ Hp] _]].
  set (payload := slice marshalled_data 16 (16 + MarshalHeader.payload_size h)) in *.
  assert (Hpl : length payload = (8 * Z.to_nat (MarshalHeader.payload_size h / 8))%nat).
  { assert (len payload = MarshalHeader.payload_size h)
      by (unfold payload; rewrite payload_length by lia; lia).
    pose proof (div_8_exact _ Hmod). unfold len in *. lia. }
  assert (Hpack : struct.pack_d
                    (struct.decode_d (Z.to_nat (MarshalHeader.payload_size h / 8)) payload)
                  = payload) by (apply pack_decode_d; exact Hpl).
  assert (Hhdr : PythonMarshaller.header_of self
                   (struct.decode_d (Z.to_nat (MarshalHeader.payload_size h / 8)) payload)
                 = h).
  { unfold PythonMarshaller.header_of. cbv zeta.
    rewrite compute_checksum_prefix, Hpack, <- Hc, Htid, <- Hv.
    replace (len payload) with (MarshalHeader.payload_size h)
      by (unfold payload; rewrite payload_length by lia; lia).
    destruct h; reflexivity. }
  rewrite marshal_data_run, Hhdr, (to_from_bytes _ _ Hh), Hpack.
  cbn [outcome snd]. unfold payload. rewrite slice_cat by lia. reflexivity.
Qed.

(** The frame for [1.0] followed by two stray bytes. *)
Lemma X7_marshal_what_was_read_witness :
  let frame := map byte.of_Z
                 [1; 0; 0; 0; 8; 0; 0; 0; 108; 60; 57; 110; 1; 0; 0; 0;
                  0; 0; 0; 0; 0; 0; 240; 63] in
  outcome (PythonMarshaller.marshal_data first_marshaller [4607182418800017408])
  = Ok (slice (frame ++ [Byte.xff; Byte.xff]) 0 (16 + 8)).
Proof.
  intros frame.
  apply (X7_marshal_what_was_read first_marshaller (frame ++ [Byte.xff; Byte.xff])
           [4607182418800017408] (MarshalHeader.Build 1 8 1849244780 1)).
  - vm_compute. reflexivity.
  - reflexivity.
  - reflexivity.
Defined.

(** X8.  [struct.error], which is not a [SecurityError], leaves
    [unmarshal_data] exactly on the byte strings with a version-1 header, at
    least as many payload bytes as declared, and a declared size that is not
    a multiple of 8. *)
Theorem X8_struct_error_escapes (self : PythonMarshaller.t) (marshalled_data : bytes) :
  outcome (PythonMarshaller.unmarshal_data self marshalled_data) = Raise struct_error
  <-> exists h,
      MarshalHeader.from_bytes marshalled_data = Ok h
      /\ MarshalHeader.version h = 1
      /\ 16 + MarshalHeader.payload_size h <= len marshalled_data
      /\ MarshalHeader.payload_size h mod 8 <> 0.
Proof.
  split.
  - intros Herr.
    destruct (Z.lt_ge_cases (len marshalled_data) 16) as [Hs|Hl].
    { rewrite unmarshal_data_short in Herr by exact Hs. discriminate. }
    pose proof (from_bytes_long _ Hl) as Hh.
    set (h := MarshalHeader.Build _ _ _ _) in Hh.
    pose proof (from_bytes_fields _ _ Hh) as [_ [[_ Hp] _]].
    destruct (Z.eq_dec (MarshalHeader.version h) 1) as [Hv|Hv];
      [|rewrite (unmarshal_data_version self _ h Hh Hv) in Herr; discriminate].
    destruct (Z.lt_ge_cases (len marshalled_data) (16 + MarshalHeader.payload_size h))
      as [Hlt|Hge];
      [rewrite (unmarshal_data_truncated self _ h Hh Hv Hlt) in Herr; discriminate|].
    exists h. repeat split; try assumption.
    intros Hmod.
    rewrite (unmarshal_data_payload self _ h Hh Hv Hge) in Herr.
    rewrite unpack_d_Ok in Herr
      by (rewrite payload_length by lia; rewrite <- div_8_exact by exact Hmod; lia).
    cbn [outcome snd] in Herr. destruct (_ =? _) in Herr; discriminate.
  - intros (h & Hh & Hv & Hlen & Hmod).
    pose proof (from_bytes_fields _ _ Hh) as [_ [[_ Hp] _]].
    rewrite (unmarshal_data_payload self _ h Hh Hv Hlen).
    rewrite unpack_d_error; [reflexivity|].
    rewrite payload_length by lia.
    pose proof (Z.div_mod (MarshalHeader.payload_size h) 8 ltac:(lia)). lia.
Qed.

Lemma X8_struct_error_escapes_witness :
  outcome (PythonMarshaller.unmarshal_data first_marshaller
             (map byte.of_Z [1; 0; 0; 0; 3; 0; 0; 0; 0; 0; 0; 0; 1; 0; 0; 0;
                             9; 9; 9; 9]))
  = Raise struct_error.
Proof.
  apply (proj2 (X8_struct_error_escapes first_marshaller _)).
  exists (MarshalHeader.Build 1 3 0 1).
  split; [reflexivity|]. split; [reflexivity|]. split; discriminate.
Defined.

(** ** Topology ids of marshallers *)

Lemma create_marshallers_ids (n : nat) (counter : Z) :
  fst (create_marshallers counter n) = counter + Z.of_nat n
  /\ map PythonMarshaller.topology_id (snd (create_marshallers counter n))
     = map (fun i => counter + Z.of_nat i) (seq 1 n).
Proof.
  revert counter. induction n as [|n IH]; intros counter.
  - cbn. split; [lia | reflexivity].
  - cbn [create_marshallers PythonMarshaller.create_marshaller PythonMarshaller.__init__].
    destruct (IH (counter + 1)) as [Hc Hids].
    destruct (create_marshallers (counter + 1) n) as [counter2 ms].
    cbn [fst snd] in *. split; [lia|].
    cbn [map PythonMarshaller.topology_id seq]. f_equal; try lia.
    rewrite Hids, <- (seq_shift n 1), map_map.
    apply map_ext. intros i. lia.
Qed.

(** X9.  The marshallers a process creates get the topology ids 1, 2, 3,
    ... in creation order: the [k]-th one has id [k], so they are pairwise
    different, and each id fits the header field as long as fewer than 2^32
    marshallers were created. *)
Theorem X9_marshaller_ids (n : nat) :
  map PythonMarshaller.topology_id (snd (create_marshallers 0 n))
  = map Z.of_nat (seq 1 n)
  /\ NoDup (map PythonMarshaller.topology_id (snd (create_marshallers 0 n)))
  /\ (Z.of_nat n < 2 ^ 32 ->
      Forall (fun m => 0 <= PythonMarshaller.topology_id m < 2 ^ 32)
             (snd (create_marshallers 0 n))).
Proof.
  destruct (create_marshallers_ids n 0) as [_ Hids].
  assert (Hids' : map PythonMarshaller.topology_id (snd (create_marshallers 0 n))
                  = map Z.of_nat (seq 1 n))
    by (rewrite Hids; apply map_ext; intros i; lia).
  split; [exact Hids'|]. split.
  - rewrite Hids'. apply NoDup_ListNoDup, Finite.Injective_map_NoDup.
    + intros a b Hab. lia.
    + apply seq_NoDup.
  - intros Hn. apply Forall_forall. intros m Hm.
    assert (Hin : In (PythonMarshaller.topology_id m) (map Z.of_nat (seq 1 n))).
    { rewrite <- Hids'. apply in_map, list_elem_of_In. exact Hm. }
    apply in_map_iff in Hin. destruct Hin as (i & <- & Hi).
    apply in_seq in Hi. lia.
Qed.

Lemma X9_marshaller_ids_witness :
  Forall (fun m => 0 <= PythonMarshaller.topology_id m < 2 ^ 32)
         (snd (create_marshallers 0 3)).
Proof. apply (proj2 (proj2 (X9_marshaller_ids 3))). reflexivity. Defined.

(** ** The validator *)

(** X10.  [validate_header] never raises: the length test guards the
    unpacking.  It answers [VALID] exactly on sixteen bytes that start with
    version 1, and [INVALID_FORMAT] on every other byte string, which then
    leaves the validator as it was. *)
Theorem X10_validate_header_answers (self : SecurityValidator.t) (header_data : bytes) :
  (well_formed_header header_data = true ->
   SecurityValidator.validate_header self header_data
   = (SecurityValidator.Build (SecurityValidator.policy self)
        (SecurityValidator._validation_count self + 1),
      Ok SecurityValidator.VALID))
  /\ (well_formed_header header_data = false ->
      SecurityValidator.validate_header self header_data
      = (self, Ok SecurityValidator.INVALID_FORMAT)).
Proof.
  unfold well_formed_header.
  destruct (Z.eqb_spec (len header_data) 16) as [H16|Hne]; cbn [andb].
  - rewrite validate_header_16 by exact H16.
    destruct (le_combine (slice header_data 0 4) =? 1);
      split; intros H; (reflexivity || discriminate).
  - rewrite validate_header_length by exact Hne.
    split; intros H; (reflexivity || discriminate).
Qed.

Lemma X10_validate_header_answers_witness :
  snd (SecurityValidator.validate_header (SecurityValidator.__init__ None)
         (map byte.of_Z [1; 0; 0; 0; 255; 255; 255; 255; 0; 0; 0; 0; 9; 0; 0; 0]))
  = Ok SecurityValidator.VALID
  /\ snd (SecurityValidator.validate_header (SecurityValidator.__init__ None)
            (map byte.of_Z [1; 0; 0; 0; 8; 0; 0; 0; 0; 0; 0; 0; 9; 0; 0; 0; 0]))
     = Ok SecurityValidator.INVALID_FORMAT.
Proof.
  split.
  - rewrite (proj1 (X10_validate_header_answers _ _)); reflexivity.
  - rewrite (proj2 (X10_validate_header_answers _ _)); reflexivity.
Defined.

Lemma serve_count (self : SecurityValidator.t) (r : SecurityValidator.request) :
  SecurityValidator._validation_count (SecurityValidator.serve self r)
  = SecurityValidator._validation_count self + (if counted r then 1 else 0)
  /\ SecurityValidator.policy (SecurityValidator.serve self r)
     = SecurityValidator.policy self.
Proof.
  destruct r as [h|p c]; cbn [SecurityValidator.serve counted].
  - unfold well_formed_header.
    destruct (Z.eqb_spec (len h) 16) as [H16|Hne]; cbn [andb].
    + rewrite validate_header_16 by exact H16.
      destruct (le_combine (slice h 0 4) =? 1); cbn; split; (reflexivity || lia).
    + rewrite validate_header_length by exact Hne. cbn. split; [lia | reflexivity].
  - rewrite validate_payload_state. split; [lia | reflexivity].
Qed.

(** X11.  After any sequence of validation calls, the counter has grown by
    the number of [validate_header] calls that were given sixteen bytes
    starting with version 1 -- the calls answered [VALID] -- and by nothing
    else; the policy is never changed. *)
Theorem X11_validation_count (rs : list SecurityValidator.request)
        (self : SecurityValidator.t) :
  SecurityValidator.validation_count
    (SecurityValidator.get_statistics (fold_left SecurityValidator.serve rs self))
  = SecurityValidator._validation_count self + len (filter (fun r => counted r = true) rs)
  /\ SecurityValidator.policy (fold_left SecurityValidator.serve rs self)
     = SecurityValidator.policy self.
Proof.
  cbn [SecurityValidator.get_statistics SecurityValidator.validation_count].
  revert self. induction rs as [|r rs IH]; intros self.
  - cbn [fold_left]. rewrite filter_nil. split; [apply Zplus_0_r_reverse | reflexivity].
  - cbn [fold_left]. destruct (IH (SecurityValidator.serve self r)) as [Hc Hp].
    destruct (serve_count self r) as [Hc1 Hp1].
    rewrite Hc, Hp, Hc1, Hp1. split; [|reflexivity].
    destruct (counted r) eqn:E.
    + rewrite filter_cons_True by exact E. unfold len. cbn [length]. lia.
    + rewrite filter_cons_False by (rewrite E; discriminate). lia.
Qed.

Lemma byte_sum_range (payload : bytes) :
  0 <= SecurityValidator.byte_sum payload < 2 ^ 32.
Proof.
  rewrite byte_sum_spec. unfold spec_fast_digest. apply Z.mod_pos_bound. lia.
Qed.

Lemma fast_digest_permutation (p p' : bytes) :
  Permutation p p' -> spec_fast_digest p = spec_fast_digest p'.
Proof.
  intros H. unfold spec_fast_digest. f_equal.
  induction H as [|b l l' _ IH|a b l|l1 l2 l3 _ IH1 _ IH2]; cbn [fold_right].
  - reflexivity.
  - rewrite IH. reflexivity.
  - lia.
  - rewrite IH1. exact IH2.
Qed.

(** X12.  A validator accepts what the marshaller produces: the first
    sixteen bytes of every frame pass [validate_header], and under
    [STANDARD] or [ENHANCED] the rest of the frame passes [validate_payload]
    against the checksum in the header.  Under [BASIC] it passes only if the
    byte sum of the payload happens to equal its truncated SHA-256 digest. *)
Theorem X12_validator_on_frames (v : SecurityValidator.t) (m : PythonMarshaller.t)
        (data : list float) (frame : bytes) (h : MarshalHeader.t) :
  outcome (PythonMarshaller.marshal_data m data) = Ok frame ->
  MarshalHeader.from_bytes frame = Ok h ->
  snd (SecurityValidator.validate_header v (slice frame 0 16))
  = Ok SecurityValidator.VALID
  /\ (SecurityValidator.level (SecurityValidator.policy v) <> SecurityValidator.BASIC ->
      snd (SecurityValidator.validate_payload v (skipn 16 frame) (MarshalHeader.checksum h))
      = SecurityValidator.VALID)
  /\ (SecurityValidator.level (SecurityValidator.policy v) = SecurityValidator.BASIC ->
      (snd (SecurityValidator.validate_payload v (skipn 16 frame)
              (MarshalHeader.checksum h))
       = SecurityValidator.VALID
       <-> spec_fast_digest (skipn 16 frame) = spec_strong_digest (skipn 16 frame))).
Proof.
  intros Hm Hh.
  destruct (marshal_data_frame m _ _ Hm) as (hb & Hb & H16 & -> & _).
  rewrite (from_to_bytes _ _ _ Hb) in Hh. injection Hh as <-.
  assert (Hhb : slice (hb ++ struct.pack_d data) 0 16 = hb).
  { rewrite slice_prefix. change (Z.to_nat 16) with 16%nat.
    apply take_app_length'. symmetry. exact H16. }
  assert (Hpl : skipn 16 (hb ++ struct.pack_d data) = struct.pack_d data)
    by (apply drop_app_length'; symmetry; exact H16).
  rewrite Hhb, Hpl.
  cbn [PythonMarshaller.header_of MarshalHeader.checksum].
  rewrite compute_checksum_prefix, sha256_prefix_spec.
  split; [|split].
  - assert (Hl : len hb = 16) by (unfold len; rewrite H16; reflexivity).
    rewrite validate_header_16 by exact Hl.
    pose proof (from_to_bytes _ hb [] Hb) as Hf. rewrite app_nil_r in Hf.
    rewrite from_bytes_long in Hf by lia. injection Hf as Hv _ _ _.
    rewrite Hv. reflexivity.
  - intros Hlevel. unfold SecurityValidator.validate_payload.
    destruct (SecurityValidator.level (SecurityValidator.policy v));
      [contradiction | |];
      rewrite sha256_prefix_spec, Z.eqb_refl; reflexivity.
  - intros Hlevel. unfold SecurityValidator.validate_payload.
    rewrite Hlevel, byte_sum_spec.
    destruct (Z.eqb_spec (spec_fast_digest (struct.pack_d data))
                         (spec_strong_digest (struct.pack_d data))) as [He|Hne];
      cbn [negb snd]; split; intros H; (assumption || reflexivity || discriminate || tauto).
Qed.

(** The frame for [1.0] against the default validator and a [BASIC] one:
    the byte sum of the payload is 303, the checksum in the header is not. *)
Lemma X12_validator_on_frames_witness :
  let frame := map byte.of_Z
                 [1; 0; 0; 0; 8; 0; 0; 0; 108; 60; 57; 110; 1; 0; 0; 0;
                  0; 0; 0; 0; 0; 0; 240; 63] in
  snd (SecurityValidator.validate_payload (SecurityValidator.__init__ None)
         (skipn 16 frame) 1849244780)
  = SecurityValidator.VALID.
Proof.
  intros frame.
  destruct (X12_validator_on_frames (SecurityValidator.__init__ None)
              first_marshaller [4607182418800017408] frame
              (MarshalHeader.Build 1 8 1849244780 1)) as (_ & Hstandard & _).
  - vm_compute. reflexivity.
  - reflexivity.
  - apply Hstandard. discriminate.
Defined.

(** X13.  Under [BASIC] the order of the payload bytes does not matter:
    [validate_payload] gives the same answer for a payload and for any
    rearrangement of its bytes. *)
Theorem X13_basic_ignores_order (v : SecurityValidator.t) (p p' : bytes) (c : Z) :
  SecurityValidator.level (SecurityValidator.policy v) = SecurityValidator.BASIC ->
  Permutation p p' ->
  snd (SecurityValidator.validate_payload v p c)
  = snd (SecurityValidator.validate_payload v p' c).
Proof.
  intros Hlevel Hperm. unfold SecurityValidator.validate_payload.
  rewrite Hlevel, !byte_sum_spec, (fast_digest_permutation p p' Hperm). reflexivity.
Qed.

(** The payload of [1.0] and the same bytes reversed, the payload of a
    different float. *)
Lemma X13_basic_ignores_order_witness :
  let v := SecurityValidator.__init__
             (Some (SecurityValidator.Policy SecurityValidator.BASIC 3600)) in
  snd (SecurityValidator.validate_payload v
         (map byte.of_Z [0; 0; 0; 0; 0; 0; 240; 63]) 303)
  = snd (SecurityValidator.validate_payload v
           (map byte.of_Z [63; 240; 0; 0; 0; 0; 0; 0]) 303).
Proof.
  intros v. apply X13_basic_ignores_order; [reflexivity|].
  apply (Permutation_rev (map byte.of_Z [0; 0; 0; 0; 0; 0; 240; 63])).
Defined.

(** X14.  An expected checksum that is not an unsigned 32-bit integer is
    never accepted, at any level: both digests are in [0, 2^32). *)
Theorem X14_checksum_out_of_range (v : SecurityValidator.t) (payload : bytes) (c : Z) :
  ~ 0 <= c < 2 ^ 32 ->
  SecurityValidator.validate_payload v payload c
  = (v, SecurityValidator.INVALID_CHECKSUM).
Proof.
  intros Hc. unfold SecurityValidator.validate_payload.
  pose proof (byte_sum_range payload) as H1.
  pose proof (sha256_prefix_range payload) as H2.
  destruct (SecurityValidator.level (SecurityValidator.policy v));
    match goal with
    | |- context [?x =? c] => destruct (Z.eqb_spec x c); [lia | reflexivity]
    end.
Qed.

Lemma X14_checksum_out_of_range_witness :
  SecurityValidator.validate_payload (SecurityValidator.__init__ None) [] (2 ^ 32 + 1120186595)
  = (SecurityValidator.__init__ None, SecurityValidator.INVALID_CHECKSUM).
Proof. apply X14_checksum_out_of_range. cbn. lia. Defined.

(** ** The node table *)

Section NodeTable.
Import TopologyManager.

Lemma register_node_recorded (self : t) (types : list string) (ty : string) (now : float) :
  registered self (length types) -> recorded self types ->
  recorded (fst (register_node self ty now)) (types ++ [ty]).
Proof.
  intros Hreg Hrec k node.
  assert (Hid : len_map (_nodes self) + 1 = Z.of_nat (S (length types)))
    by (unfold len_map; rewrite (reg_size _ _ Hreg); lia).
  unfold register_node. cbn [fst _nodes]. rewrite Hid.
  destruct (decide (Z.of_nat (S (length types)) = k)) as [<-|Hne].
  - rewrite lookup_insert_eq. intros [= <-]. cbn [node_id marshal_operations node_type].
    split; [reflexivity|]. split; [reflexivity|].
    replace (Z.to_nat (Z.of_nat (S (length types)) - 1)) with (length types) by lia.
    apply list_lookup_middle. reflexivity.
  - rewrite lookup_insert_ne by exact Hne. intros Hk.
    destruct (Hrec k node Hk) as (H1 & H2 & H3).
    split; [exact H1|]. split; [exact H2|]. apply lookup_app_l_Some. exact H3.
Qed.

Lemma update_heartbeat_recorded (self : t) (types : list string) (i : Z) (now : float) :
  recorded self types -> recorded (update_heartbeat self i now) types.
Proof.
  intros Hrec. unfold update_heartbeat.
  destruct (_nodes self !! i) as [old|] eqn:E; [|exact Hrec].
  intros k node. cbn [_nodes].
  destruct (decide (i = k)) as [<-|Hne].
  - rewrite lookup_insert_eq. intros [= <-].
    cbn [node_id marshal_operations node_type]. exact (Hrec i old E).
  - rewrite lookup_insert_ne by exact Hne. apply Hrec.
Qed.

Lemma fold_serve_recorded (rs : list request) (self : t) (types : list string) :
  registered self (length types) -> recorded self types ->
  recorded (fold_left serve rs self) (types ++ registered_types rs).
Proof.
  revert self types. induction rs as [|r rs IH]; intros self types Hreg Hrec.
  - cbn [fold_left registered_types]. rewrite app_nil_r. exact Hrec.
  - destruct r as [ty now|i now| |]; cbn [fold_left serve registered_types].
    + replace (types ++ ty :: registered_types rs)
        with ((types ++ [ty]) ++ registered_types rs)
        by (rewrite <- app_assoc; reflexivity).
      apply IH.
      * rewrite length_app, Nat.add_1_r.
        apply register_node_registered. exact Hreg.
      * apply register_node_recorded; assumption.
    + apply IH.
      * apply update_heartbeat_registered. exact Hreg.
      * apply update_heartbeat_recorded. exact Hrec.
    + apply IH; assumption.
    + apply IH; assumption.
Qed.

Lemma after_recorded (rs : list request) : recorded (after rs) (registered_types rs).
Proof.
  apply (fold_serve_recorded rs __init__ []).
  - exact registered_init.
  - intros k node Hk. cbn in Hk. rewrite lookup_empty in Hk. discriminate.
Qed.

Lemma length_registered_types (rs : list request) :
  length (registered_types rs) = registrations rs.
Proof.
  induction rs as [|r rs IH]; [reflexivity|].
  destruct r; cbn [registered_types registrations length]; rewrite ?IH; reflexivity.
Qed.

End NodeTable.

(** X15.  On a manager on which [n] nodes were registered, [register_node]
    returns [n + 1], an id that was free, stores under it a node with the
    given type and time, no operations and state [ACTIVE], leaves every
    other entry as it was, and makes the summary count one node more. *)
Theorem X15_register_node_stores (rs : list TopologyManager.request)
        (ty : string) (now : float) :
  let self := TopologyManager.after rs in
  let node_id := Z.of_nat (TopologyManager.registrations rs) + 1 in
  let self' := fst (TopologyManager.register_node self ty now) in
  snd (TopologyManager.register_node self ty now) = node_id
  /\ TopologyManager._nodes self !! node_id = None
  /\ TopologyManager._nodes self' !! node_id
     = Some (TopologyManager.Node node_id ty now 0 TopologyManager.ACTIVE)
  /\ (forall k, k <> node_id ->
        TopologyManager._nodes self' !! k = TopologyManager._nodes self !! k)
  /\ TopologyManager.total_nodes (TopologyManager.get_topology_summary self')
     = TopologyManager.total_nodes (TopologyManager.get_topology_summary self) + 1.
Proof.
  intros self node_id self'.
  pose proof (after_registered rs) as Hreg. fold self in Hreg.
  destruct (register_node_registered self _ ty now Hreg) as [Hid Hreg'].
  fold self' in Hreg'.
  assert (Hlen : len_map (TopologyManager._nodes self) + 1 = node_id)
    by (unfold len_map, node_id; rewrite (TopologyManager.reg_size _ _ Hreg); lia).
  assert (Hfree : TopologyManager._nodes self !! node_id = None).
  { destruct (TopologyManager._nodes self !! node_id) eqn:E; [|reflexivity].
    assert (Hs : is_Some (TopologyManager._nodes self !! node_id)) by (rewrite E; eauto).
    apply (TopologyManager.reg_ids _ _ Hreg) in Hs. unfold node_id in Hs. lia. }
  split; [rewrite Hid; unfold node_id; lia|]. split; [exact Hfree|].
  unfold self', TopologyManager.register_node.
  cbn [fst TopologyManager._nodes]. rewrite Hlen.
  split; [apply lookup_insert_eq|]. split.
  - intros k Hk. apply lookup_insert_ne. congruence.
  - cbn [TopologyManager.get_topology_summary TopologyManager.total_nodes
         TopologyManager._nodes].
    unfold len_map. rewrite map_size_insert_None by exact Hfree. lia.
Qed.

(** X16.  A heartbeat for an id that is not in the table changes nothing.
    For an id in the table it replaces that node's [last_heartbeat] and
    nothing else: the node's other fields, every other node, the local node
    id and the number of nodes stay. *)
Theorem X16_update_heartbeat (self : TopologyManager.t) (i : Z) (now : float) :
  (TopologyManager._nodes self !! i = None ->
   TopologyManager.update_heartbeat self i now = self)
  /\ (forall node,
        TopologyManager._nodes self !! i = Some node ->
        let self' := TopologyManager.update_heartbeat self i now in
        TopologyManager._nodes self' !! i
        = Some (TopologyManager.Node (TopologyManager.node_id node)
                  (TopologyManager.node_type node) now
                  (TopologyManager.marshal_operations node)
                  (TopologyManager.state node))
        /\ (forall k, k <> i ->
              TopologyManager._nodes self' !! k = TopologyManager._nodes self !! k)
        /\ TopologyManager.get_local_node_id self'
           = TopologyManager.get_local_node_id self
        /\ TopologyManager.total_nodes (TopologyManager.get_topology_summary self')
           = TopologyManager.total_nodes (TopologyManager.get_topology_summary self)).
Proof.
  unfold TopologyManager.update_heartbeat. split.
  - intros ->. reflexivity.
  - intros node Hnode. rewrite Hnode. cbv zeta. cbn [TopologyManager._nodes].
    split; [apply lookup_insert_eq|]. split; [|split].
    + intros k Hk. apply lookup_insert_ne. congruence.
    + reflexivity.
    + cbn [TopologyManager.get_topology_summary TopologyManager.total_nodes
           TopologyManager._nodes].
      unfold len_map. rewrite map_size_insert_Some by (rewrite Hnode; eauto).
      reflexivity.
Qed.

Lemma X16_update_heartbeat_witness :
  let self := TopologyManager.after [TopologyManager.req_register_node "python" 3] in
  TopologyManager.update_heartbeat self 2 9 = self
  /\ TopologyManager._nodes (TopologyManager.update_heartbeat self 1 9) !! 1
     = Some (TopologyManager.Node 1 "python" 9 0 TopologyManager.ACTIVE).
Proof.
  intros self. split.
  - apply (proj1 (X16_update_heartbeat self 2 9)). vm_compute. reflexivity.
  - apply (proj1 (proj2 (X16_update_heartbeat self 1 9)
                    (TopologyManager.Node 1 "python" 3 0 TopologyManager.ACTIVE)
                    ltac:(vm_compute; reflexivity))).
Defined.

(** X17.  In every state a manager reaches, the table holds exactly the ids
    1 to [n], [n] being the number of registrations, and the node stored
    under id [k] has [node_id] [k], the node type given at the [k]-th
    registration, and [marshal_operations] 0: no call ever counts an
    operation. *)
Theorem X17_node_table (rs : list TopologyManager.request) (k : Z) :
  (is_Some (TopologyManager._nodes (TopologyManager.after rs) !! k)
   <-> 1 <= k <= Z.of_nat (TopologyManager.registrations rs))
  /\ (forall node,
        TopologyManager._nodes (TopologyManager.after rs) !! k = Some node ->
        TopologyManager.node_id node = k
        /\ TopologyManager.marshal_operations node = 0
        /\ registered_types rs !! Z.to_nat (k - 1)
           = Some (TopologyManager.node_type node)).
Proof.
  split.
  - exact (TopologyManager.reg_ids _ _ (after_registered rs) k).
  - exact (after_recorded rs k).
Qed.

Lemma X17_node_table_witness :
  let rs := [TopologyManager.req_register_node "python" 0;
             TopologyManager.req_register_node "java" 3;
             TopologyManager.req_update_heartbeat 2 5] in
  TopologyManager.node_id (TopologyManager.Node 2 "java" 5 0 TopologyManager.ACTIVE) = 2
  /\ TopologyManager.marshal_operations
       (TopologyManager.Node 2 "java" 5 0 TopologyManager.ACTIVE) = 0
  /\ registered_types rs !! Z.to_nat (2 - 1) = Some "java"%string.
Proof.
  intros rs.
  apply (proj2 (X17_node_table rs 2)
           (TopologyManager.Node 2 "java" 5 0 TopologyManager.ACTIVE)).
  vm_compute. reflexivity.
Defined.

(** X18.  After any sequence of calls on a new manager the summary reports
    the number of registrations as [total_nodes] and as [active_nodes], and
    as [local_node_id] nothing before the first registration and 1 after
    it. *)
Theorem X18_topology_summary (rs : list TopologyManager.request) :
  TopologyManager.get_topology_summary (TopologyManager.after rs)
  = TopologyManager.Summary
      (Z.of_nat (TopologyManager.registrations rs))
      (Z.of_nat (TopologyManager.registrations rs))
      (match TopologyManager.registrations rs with O => None | S _ => Some 1 end).
Proof.
  pose proof (after_registered rs) as Hreg.
  pose proof (summary_all_active _ (TopologyManager.reg_active _ _ Hreg)) as Hact.
  unfold TopologyManager.get_topology_summary in *.
  cbn [TopologyManager.active_nodes TopologyManager.total_nodes] in Hact.
  rewrite Hact, (TopologyManager.reg_local _ _ Hreg).
  unfold len_map. rewrite (TopologyManager.reg_size _ _ Hreg). reflexivity.
Qed.

Lemma X15_register_node_stores_witness :
  TopologyManager._nodes
    (fst (TopologyManager.register_node
            (TopologyManager.after [TopologyManager.req_register_node "python" 3])
            "java" 4)) !! 1
  = TopologyManager._nodes
      (TopologyManager.after [TopologyManager.req_register_node "python" 3]) !! 1.
Proof.
  apply (proj1 (proj2 (proj2 (proj2
           (X15_register_node_stores [TopologyManager.req_register_node "python" 3]
              "java" 4))))).
  discriminate.
Defined.

(** ** The pure Python fallback *)

Section Fallback.
Import ZeroOverheadMarshaller.

Lemma unpack_header (marshalled_data : bytes) :
  16 <= len marshalled_data ->
  struct.unpack_IIII (slice marshalled_data 0 16)
  = Ok (le_combine (slice marshalled_data 0 4), le_combine (slice marshalled_data 4 8),
        le_combine (slice marshalled_data 8 12), le_combine (slice marshalled_data 12 16)).
Proof.
  intros Hl. pose proof (from_bytes_long _ Hl) as Hh.
  unfold MarshalHeader.from_bytes in Hh.
  destruct (struct.unpack_IIII (slice marshalled_data 0 16))
    as [[[[v p] c] t0]|e]; [|discriminate].
  injection Hh as -> -> -> ->. reflexivity.
Qed.

(** How a run of the fallback's [unmarshal_data] goes on 16 bytes or more. *)
Lemma fallback_unmarshal_run (self : t) (marshalled_data : bytes) :
  16 <= len marshalled_data ->
  unmarshal_data self marshalled_data
  = if negb (le_combine (slice marshalled_data 0 4) =? 1)
    then (count_error self,
          Raises (ValueError (Invalid_version (le_combine (slice marshalled_data 0 4)))))
    else if negb (SecurityValidator.byte_sum (skipn 16 marshalled_data)
                  =? le_combine (slice marshalled_data 8 12))
    then (count_error self, Raises (ValueError Checksum_failed))
    else (self, frombuffer (skipn 16 marshalled_data)).
Proof.
  intros Hl. unfold unmarshal_data.
  destruct (Z.ltb_spec (len marshalled_data) 16); [lia|].
  cbv zeta. rewrite unpack_header by exact Hl. reflexivity.
Qed.

Lemma fallback_unmarshal_short (self : t) (marshalled_data : bytes) :
  len marshalled_data < 16 ->
  unmarshal_data self marshalled_data
  = (count_error self, Raises (ValueError Invalid_data)).
Proof.
  intros Hs. unfold unmarshal_data.
  destruct (Z.ltb_spec (len marshalled_data) 16); [reflexivity | lia].
Qed.

(** A header followed by a payload, read by the fallback. *)
Lemma fallback_unmarshal_frame (self : t) (h : MarshalHeader.t)
      (header_bytes payload : bytes) :
  MarshalHeader.to_bytes h = Ok header_bytes ->
  unmarshal_data self (header_bytes ++ payload)
  = if negb (MarshalHeader.version h =? 1)
    then (count_error self, Raises (ValueError (Invalid_version (MarshalHeader.version h))))
    else if negb (SecurityValidator.byte_sum payload =? MarshalHeader.checksum h)
    then (count_error self, Raises (ValueError Checksum_failed))
    else (self, frombuffer payload).
Proof.
  intros Hb. pose proof (pack_IIII_length _ _ _ _ _ Hb) as H16.
  assert (Hl : 16 <= len (header_bytes ++ payload)).
  { rewrite len_app. unfold len at 1. rewrite H16. pose proof (len_nonneg payload). lia. }
  rewrite fallback_unmarshal_run by exact Hl.
  pose proof (from_to_bytes _ _ payload Hb) as Hf.
  rewrite from_bytes_long in Hf by exact Hl. injection Hf as <-.
  cbn [MarshalHeader.version MarshalHeader.checksum].
  replace (skipn 16 (header_bytes ++ payload)) with payload
    by (symmetry; apply drop_app_length'; symmetry; exact H16).
  reflexivity.
Qed.

Lemma frombuffer_pack_d (data : list float) :
  Forall is_float64 data -> frombuffer (struct.pack_d data) = Returns data.
Proof.
  intros Hd. unfold frombuffer. rewrite len_pack_d.
  replace (8 * len data mod 8) with 0
    by (symmetry; rewrite Z.mul_comm; apply Z.mod_mul; lia).
  cbn [Z.eqb].
  replace (8 * len data / 8) with (len data)
    by (symmetry; rewrite Z.mul_comm; apply Z.div_mul; lia).
  unfold len. rewrite Nat2Z.id, decode_pack_d by exact Hd. reflexivity.
Qed.

Lemma fallback_marshal_run (self : t) (data : list float) :
  len data < 2 ^ 29 -> 0 <= topology_id self < 2 ^ 32 ->
  marshal_data self data
  = (Build (buffer_size self) (topology_id self) (marshal_count self + 1)
       (error_count self),
     Returns ((le_split 4 1 ++ le_split 4 (8 * len data)
                 ++ le_split 4 (SecurityValidator.byte_sum (struct.pack_d data))
                 ++ le_split 4 (topology_id self))
                ++ struct.pack_d data)).
Proof.
  intros Hlen Htid. unfold marshal_data. cbv zeta.
  rewrite len_pack_d, pack_IIII_Ok; [reflexivity | lia | | | exact Htid].
  - pose proof (len_nonneg data). lia.
  - apply byte_sum_range.
Qed.

End Fallback.

(** X19.  The fallback round trip: for fewer than 2^29 float64 values and a
    topology id that fits the header, [marshal_data] returns a frame of
    [16 + 8 * len(data)] bytes and counts one marshal operation, and
    [unmarshal_data] on that frame returns the values and changes no
    counter. *)
Theorem X19_fallback_round_trip (self : ZeroOverheadMarshaller.t) (data : list float) :
  Forall is_float64 data ->
  len data < 2 ^ 29 ->
  0 <= ZeroOverheadMarshaller.topology_id self < 2 ^ 32 ->
  exists frame,
    let self' := ZeroOverheadMarshaller.Build
                   (ZeroOverheadMarshaller.buffer_size self)
                   (ZeroOverheadMarshaller.topology_id self)
                   (ZeroOverheadMarshaller.marshal_count self + 1)
                   (ZeroOverheadMarshaller.error_count self) in
    ZeroOverheadMarshaller.marshal_data self data
    = (self', ZeroOverheadMarshaller.Returns frame)
    /\ len frame = 16 + 8 * len data
    /\ ZeroOverheadMarshaller.unmarshal_data self' frame
       = (self', ZeroOverheadMarshaller.Returns data).
Proof.
  intros Hd Hlen Htid. eexists. cbv zeta.
  split; [apply fallback_marshal_run; assumption|]. split.
  - rewrite len_app, len_pack_d. reflexivity.
  - rewrite (fallback_unmarshal_frame _
               (MarshalHeader.Build 1 (8 * len data)
                  (SecurityValidator.byte_sum (struct.pack_d data))
                  (ZeroOverheadMarshaller.topology_id self))).
    + cbn [MarshalHeader.version MarshalHeader.checksum Z.eqb Pos.eqb negb].
      rewrite Z.eqb_refl. cbn [negb]. rewrite frombuffer_pack_d by exact Hd.
      reflexivity.
    + unfold MarshalHeader.to_bytes.
      cbn [MarshalHeader.version MarshalHeader.payload_size MarshalHeader.checksum
           MarshalHeader.topology_id].
      apply pack_IIII_Ok; [lia | | apply byte_sum_range | exact Htid].
      pose proof (len_nonneg data). lia.
Qed.

(** A marshaller whose [id(self)] is a 47-bit address: its topology id is
    the low 32 bits. *)
Lemma X19_fallback_round_trip_witness :
  exists frame,
    ZeroOverheadMarshaller.marshal_data
      (ZeroOverheadMarshaller.create_marshaller 140737488355000)
      [4607182418800017408; 4612811918334230528]
    = (ZeroOverheadMarshaller.Build 1024 4294966968 1 0,
       ZeroOverheadMarshaller.Returns frame)
    /\ len frame = 16 + 8 * 2
    /\ ZeroOverheadMarshaller.unmarshal_data
         (ZeroOverheadMarshaller.Build 1024 4294966968 1 0) frame
       = (ZeroOverheadMarshaller.Build 1024 4294966968 1 0,
          ZeroOverheadMarshaller.Returns [4607182418800017408; 4612811918334230528]).
Proof.
  apply (X19_fallback_round_trip
           (ZeroOverheadMarshaller.create_marshaller 140737488355000)
           [4607182418800017408; 4612811918334230528]).
  - repeat constructor; unfold is_float64; lia.
  - reflexivity.
  - split; [discriminate | reflexivity].
Defined.

(** X20.  The fallback's [unmarshal_data] returns values exactly for the
    byte strings of 16 bytes or more with version 1, whose bytes after the
    header -- all of them -- sum, modulo 2^32, to the checksum field and
    are a multiple of 8 in number; the values are those bytes decoded.  The
    [payload_size] and [topology_id] fields play no part. *)
Theorem X20_fallback_accepted (self : ZeroOverheadMarshaller.t)
        (marshalled_data : bytes) (data : list float) :
  snd (ZeroOverheadMarshaller.unmarshal_data self marshalled_data)
  = ZeroOverheadMarshaller.Returns data
  <-> 16 <= len marshalled_data
      /\ le_combine (slice marshalled_data 0 4) = 1
      /\ spec_fast_digest (skipn 16 marshalled_data)
         = le_combine (slice marshalled_data 8 12)
      /\ (len marshalled_data - 16) mod 8 = 0
      /\ data = struct.decode_d (Z.to_nat ((len marshalled_data - 16) / 8))
                  (skipn 16 marshalled_data).
Proof.
  destruct (Z.lt_ge_cases (len marshalled_data) 16) as [Hs|Hl].
  { rewrite fallback_unmarshal_short by exact Hs. cbn [snd].
    split; [discriminate | lia]. }
  assert (Hpl : len (skipn 16 marshalled_data) = len marshalled_data - 16)
    by (unfold len in *; rewrite length_drop; lia).
  rewrite fallback_unmarshal_run by exact Hl. rewrite byte_sum_spec.
  unfold ZeroOverheadMarshaller.frombuffer. rewrite Hpl.
  destruct (Z.eqb_spec (le_combine (slice marshalled_data 0 4)) 1) as [Hv|Hv];
    cbn [negb snd]; [|split; [discriminate | tauto]].
  destruct (Z.eqb_spec (spec_fast_digest (skipn 16 marshalled_data))
              (le_combine (slice marshalled_data 8 12))) as [Hc|Hc];
    cbn [negb snd]; [|split; [discriminate | tauto]].
  destruct (Z.eqb_spec ((len marshalled_data - 16) mod 8) 0) as [Hm|Hm];
    [|split; [discriminate | tauto]].
  split.
  - intros [= <-]. tauto.
  - intros (_ & _ & _ & _ & ->). reflexivity.
Qed.

(** A version-1 header that declares 0 payload bytes, in front of the eight
    bytes of [1.0]: the fallback reads the float. *)
Lemma X20_fallback_accepted_witness :
  snd (ZeroOverheadMarshaller.unmarshal_data
         (ZeroOverheadMarshaller.create_marshaller 7)
         (map byte.of_Z [1; 0; 0; 0; 0; 0; 0; 0; 47; 1; 0; 0; 0; 0; 0; 0;
                         0; 0; 0; 0; 0; 0; 240; 63]))
  = ZeroOverheadMarshaller.Returns [4607182418800017408].
Proof.
  apply (proj2 (X20_fallback_accepted _ _ _)).
  split; [discriminate|]. split; [reflexivity|]. split; [reflexivity|].
  split; reflexivity.
Defined.

(** X21.  The fallback's checksum does not see the order of the payload
    bytes: after the same header, a payload and any rearrangement of its
    bytes are both returned or both refused, and the marshaller's counters
    end up the same. *)
Theorem X21_fallback_ignores_order (self : ZeroOverheadMarshaller.t)
        (header_bytes p p' : bytes) :
  len header_bytes = 16 ->
  Permutation p p' ->
  fst (ZeroOverheadMarshaller.unmarshal_data self (header_bytes ++ p))
  = fst (ZeroOverheadMarshaller.unmarshal_data self (header_bytes ++ p'))
  /\ ((exists data,
          snd (ZeroOverheadMarshaller.unmarshal_data self (header_bytes ++ p))
          = ZeroOverheadMarshaller.Returns data)
      <-> (exists data',
              snd (ZeroOverheadMarshaller.unmarshal_data self (header_bytes ++ p'))
              = ZeroOverheadMarshaller.Returns data')).
Proof.
  intros H16 Hperm.
  assert (Hlen : length p = length p') by (apply Permutation_length; exact Hperm).
  assert (Hn : length header_bytes = 16%nat) by (unfold len in H16; lia).
  assert (Hrun : forall q,
             ZeroOverheadMarshaller.unmarshal_data self (header_bytes ++ q)
             = if negb (le_combine (slice header_bytes 0 4) =? 1)
               then (ZeroOverheadMarshaller.count_error self,
                     ZeroOverheadMarshaller.Raises
                       (ZeroOverheadMarshaller.ValueError
                          (ZeroOverheadMarshaller.Invalid_version
                             (le_combine (slice header_bytes 0 4)))))
               else if negb (spec_fast_digest q =? le_combine (slice header_bytes 8 12))
               then (ZeroOverheadMarshaller.count_error self,
                     ZeroOverheadMarshaller.Raises
                       (ZeroOverheadMarshaller.ValueError
                          ZeroOverheadMarshaller.Checksum_failed))
               else (self, ZeroOverheadMarshaller.frombuffer q)).
  { intros q.
    rewrite fallback_unmarshal_run
      by (rewrite len_app; pose proof (len_nonneg q); lia).
    rewrite !slice_app_within by lia.
    rewrite drop_app_length' by (symmetry; exact Hn).
    rewrite byte_sum_spec. reflexivity. }
  rewrite (Hrun p), (Hrun p'), (fast_digest_permutation p p' Hperm).
  destruct (negb (le_combine (slice header_bytes 0 4) =? 1)).
  { cbn [fst snd]. split; [reflexivity|]. split; intros [d Hd]; discriminate. }
  destruct (negb (spec_fast_digest p' =? le_combine (slice header_bytes 8 12))).
  { cbn [fst snd]. split; [reflexivity|]. split; intros [d Hd]; discriminate. }
  cbn [fst snd]. split; [reflexivity|].
  unfold ZeroOverheadMarshaller.frombuffer, len. rewrite Hlen.
  destruct (Z.of_nat (length p') mod 8 =? 0).
  - split; intros _; eauto.
  - split; intros [d Hd]; discriminate.
Qed.

(** The fallback frame of [1.0] with its payload bytes reversed. *)
Lemma X21_fallback_ignores_order_witness :
  let header := map byte.of_Z [1; 0; 0; 0; 8; 0; 0; 0; 47; 1; 0; 0; 7; 0; 0; 0] in
  let p := map byte.of_Z [0; 0; 0; 0; 0; 0; 240; 63] in
  (exists data,
      snd (ZeroOverheadMarshaller.unmarshal_data
             (ZeroOverheadMarshaller.create_marshaller 7) (header ++ p))
      = ZeroOverheadMarshaller.Returns data)
  <-> (exists data',
          snd (ZeroOverheadMarshaller.unmarshal_data
                 (ZeroOverheadMarshaller.create_marshaller 7) (header ++ rev p))
          = ZeroOverheadMarshaller.Returns data').
Proof.
  intros header p.
  apply (proj2 (X21_fallback_ignores_order
                  (ZeroOverheadMarshaller.create_marshaller 7) header p (rev p)
                  eq_refl (Permutation_rev p))).
Defined.

(** X22.  The fallback's counters.  [unmarshal_data] adds one to
    [error_count] when it raises one of its own three [ValueError]s, and
    nothing when it returns or when [np.frombuffer] raises on a payload
    whose length is not a multiple of 8; it never raises [struct.error] and
    never touches [marshal_count].  [marshal_data] adds one to
    [marshal_count] when it returns and nothing when it raises, and never
    touches [error_count]. *)
Theorem X22_fallback_counters (self : ZeroOverheadMarshaller.t) :
  (forall marshalled_data,
      let r := ZeroOverheadMarshaller.unmarshal_data self marshalled_data in
      ZeroOverheadMarshaller.error_count (fst r)
      = ZeroOverheadMarshaller.error_count self
        + match snd r with
          | ZeroOverheadMarshaller.Raises
              (ZeroOverheadMarshaller.ValueError ZeroOverheadMarshaller.Buffer_size) => 0
          | ZeroOverheadMarshaller.Raises (ZeroOverheadMarshaller.ValueError _) => 1
          | _ => 0
          end
      /\ snd r <> ZeroOverheadMarshaller.Raises ZeroOverheadMarshaller.StructError
      /\ ZeroOverheadMarshaller.marshal_count (fst r)
         = ZeroOverheadMarshaller.marshal_count self)
  /\ (forall data,
        let r := ZeroOverheadMarshaller.marshal_data self data in
        ZeroOverheadMarshaller.marshal_count (fst r)
        = ZeroOverheadMarshaller.marshal_count self
          + match snd r with
            | ZeroOverheadMarshaller.Returns _ => 1
            | ZeroOverheadMarshaller.Raises _ => 0
            end
        /\ ZeroOverheadMarshaller.error_count (fst r)
           = ZeroOverheadMarshaller.error_count self).
Proof.
  split.
  - intros md r. subst r.
    destruct (Z.lt_ge_cases (len md) 16) as [Hs|Hl].
    { rewrite fallback_unmarshal_short by exact Hs. cbn.
      split; [reflexivity|]. split; [discriminate | reflexivity]. }
    rewrite fallback_unmarshal_run by exact Hl.
    destruct (negb (le_combine (slice md 0 4) =? 1)).
    { cbn. split; [reflexivity|]. split; [discriminate | reflexivity]. }
    destruct (negb (SecurityValidator.byte_sum (skipn 16 md) =? le_combine (slice md 8 12))).
    { cbn. split; [reflexivity|]. split; [discriminate | reflexivity]. }
    unfold ZeroOverheadMarshaller.frombuffer.
    destruct (len (skipn 16 md) mod 8 =? 0); cbn [fst snd];
      (split; [lia|]; split; [discriminate | reflexivity]).
  - intros data r. subst r. unfold ZeroOverheadMarshaller.marshal_data. cbv zeta.
    destruct (struct.pack_IIII _ _ _ _); cbn; split; (reflexivity || lia).
Qed.

(** X23.  The two implementations do not read each other's frames: for the
    same values their frames differ in the checksum field, one holding the
    truncated SHA-256 digest and the other the byte sum, so each refuses
    the other's frame with its checksum error -- unless the two digests of
    the payload happen to coincide, and then it returns the values. *)
Theorem X23_not_wire_compatible (fallback : ZeroOverheadMarshaller.t)
        (m : PythonMarshaller.t) (data : list float) :
  Forall is_float64 data ->
  len data < 2 ^ 29 ->
  0 <= ZeroOverheadMarshaller.topology_id fallback < 2 ^ 32 ->
  0 <= PythonMarshaller.topology_id m < 2 ^ 32 ->
  exists fallback_frame python_frame,
    snd (ZeroOverheadMarshaller.marshal_data fallback data)
    = ZeroOverheadMarshaller.Returns fallback_frame
    /\ outcome (PythonMarshaller.marshal_data m data) = Ok python_frame
    /\ outcome (PythonMarshaller.unmarshal_data m fallback_frame)
       = (if spec_fast_digest (struct.pack_d data) =? spec_strong_digest (struct.pack_d data)
          then Ok data else Raise (SecurityError ChecksumFailed))
    /\ snd (ZeroOverheadMarshaller.unmarshal_data fallback python_frame)
       = (if spec_fast_digest (struct.pack_d data) =? spec_strong_digest (struct.pack_d data)
          then ZeroOverheadMarshaller.Returns data
          else ZeroOverheadMarshaller.Raises
                 (ZeroOverheadMarshaller.ValueError ZeroOverheadMarshaller.Checksum_failed)).
Proof.
  intros Hd Hlen Hf Hm.
  pose proof (len_nonneg data) as Hn.
  set (hf := MarshalHeader.Build 1 (8 * len data)
               (SecurityValidator.byte_sum (struct.pack_d data))
               (ZeroOverheadMarshaller.topology_id fallback)).
  assert (Hhf : MarshalHeader.to_bytes hf
                = Ok (le_split 4 1 ++ le_split 4 (8 * len data)
                        ++ le_split 4 (SecurityValidator.byte_sum (struct.pack_d data))
                        ++ le_split 4 (ZeroOverheadMarshaller.topology_id fallback))).
  { unfold MarshalHeader.to_bytes, hf.
    cbn [MarshalHeader.version MarshalHeader.payload_size MarshalHeader.checksum
         MarshalHeader.topology_id].
    apply pack_IIII_Ok; [lia | lia | apply byte_sum_range | exact Hf]. }
  pose proof (header_of_to_bytes m data ltac:(lia) Hm) as Hhm.
  eexists. eexists.
  split; [rewrite fallback_marshal_run by assumption; reflexivity|].
  split; [rewrite marshal_data_run, Hhm; reflexivity|].
  split.
  - rewrite (unmarshal_data_frame m hf _ _ (length data) Hhf);
      [| reflexivity | unfold hf; cbn [MarshalHeader.payload_size]; symmetry;
                       apply len_pack_d | apply length_pack_d].
    unfold hf. cbn [MarshalHeader.checksum outcome snd].
    rewrite byte_sum_spec, sha256_prefix_spec, decode_pack_d by exact Hd.
    reflexivity.
  - rewrite (fallback_unmarshal_frame fallback (PythonMarshaller.header_of m data) _ _ Hhm).
    cbn [PythonMarshaller.header_of MarshalHeader.version MarshalHeader.checksum
         Z.eqb Pos.eqb negb].
    rewrite byte_sum_spec, compute_checksum_prefix, sha256_prefix_spec.
    destruct (spec_fast_digest (struct.pack_d data)
              =? spec_strong_digest (struct.pack_d data)); cbn [negb snd].
    + apply frombuffer_pack_d. exact Hd.
    + reflexivity.
Qed.

(** For [1.0] the byte sum is 303 and the truncated digest 1849244780. *)
Lemma X23_not_wire_compatible_witness :
  exists fallback_frame python_frame,
    snd (ZeroOverheadMarshaller.marshal_data
           (ZeroOverheadMarshaller.create_marshaller 7) [4607182418800017408])
    = ZeroOverheadMarshaller.Returns fallback_frame
    /\ outcome (PythonMarshaller.marshal_data first_marshaller [4607182418800017408])
       = Ok python_frame
    /\ outcome (PythonMarshaller.unmarshal_data first_marshaller fallback_frame)
       = (if spec_fast_digest (struct.pack_d [4607182418800017408])
             =? spec_strong_digest (struct.pack_d [4607182418800017408])
          then Ok [4607182418800017408] else Raise (SecurityError ChecksumFailed))
    /\ snd (ZeroOverheadMarshaller.unmarshal_data
              (ZeroOverheadMarshaller.create_marshaller 7) python_frame)
       = (if spec_fast_digest (struct.pack_d [4607182418800017408])
             =? spec_strong_digest (struct.pack_d [4607182418800017408])
          then ZeroOverheadMarshaller.Returns [4607182418800017408]
          else ZeroOverheadMarshaller.Raises
                 (ZeroOverheadMarshaller.ValueError
                    ZeroOverheadMarshaller.Checksum_failed)).
Proof.
  apply (X23_not_wire_compatible (ZeroOverheadMarshaller.create_marshaller 7)
           first_marshaller [4607182418800017408]).
  - repeat constructor; unfold is_float64; lia.
  - reflexivity.
  - split; [discriminate | reflexivity].
  - split; [discriminate | reflexivity].
Defined.

(** X24.  A new fallback marshaller's topology id is the low 32 bits of
    [id(self)], an unsigned 32-bit integer whatever [id(self)] is, so its
    [marshal_data] raises [struct.error] exactly for lists of 2^29 values or
    more; and neither [marshal_data] nor [unmarshal_data] changes the
    topology id of the marshaller it is called on. *)
Theorem X24_fallback_topology_id (id_self initial_size : Z) :
  let self := ZeroOverheadMarshaller.__init__ id_self initial_size in
  ZeroOverheadMarshaller.get_topology_id self = id_self mod 2 ^ 32
  /\ (forall data,
        snd (ZeroOverheadMarshaller.marshal_data self data)
        = ZeroOverheadMarshaller.Raises ZeroOverheadMarshaller.StructError
        <-> 2 ^ 29 <= len data)
  /\ (forall other data,
        ZeroOverheadMarshaller.topology_id
          (fst (ZeroOverheadMarshaller.marshal_data other data))
        = ZeroOverheadMarshaller.topology_id other)
  /\ (forall other marshalled_data,
        ZeroOverheadMarshaller.topology_id
          (fst (ZeroOverheadMarshaller.unmarshal_data other marshalled_data))
        = ZeroOverheadMarshaller.topology_id other).
Proof.
  intros self.
  assert (Hid : ZeroOverheadMarshaller.topology_id self = id_self mod 2 ^ 32).
  { unfold self, ZeroOverheadMarshaller.__init__.
    cbn [ZeroOverheadMarshaller.topology_id].
    change 4294967295 with (Z.ones 32). apply Z.land_ones. lia. }
  assert (Hr : 0 <= ZeroOverheadMarshaller.topology_id self < 2 ^ 32)
    by (rewrite Hid; apply Z.mod_pos_bound; lia).
  split; [exact Hid|]. split; [|split].
  - intros data. destruct (Z.lt_ge_cases (len data) (2 ^ 29)) as [Hlt|Hge].
    + rewrite fallback_marshal_run by assumption. cbn [snd].
      split; [discriminate | lia].
    + split; [intros _; exact Hge|]. intros _.
      unfold ZeroOverheadMarshaller.marshal_data. cbv zeta.
      destruct (struct.pack_IIII _ _ _ _) as [hb|e] eqn:E; [|reflexivity].
      apply pack_IIII_fits in E. rewrite len_pack_d in E. lia.
  - intros other data. unfold ZeroOverheadMarshaller.marshal_data. cbv zeta.
    destruct (struct.pack_IIII _ _ _ _); reflexivity.
  - intros other md. unfold ZeroOverheadMarshaller.unmarshal_data. cbv zeta.
    destruct (len md <? 16); [reflexivity|].
    destruct (struct.unpack_IIII _) as [[[[v p] c] t0]|e]; [|reflexivity].
    destruct (negb (v =? 1)); [reflexivity|].
    destruct (negb _); reflexivity.
Qed.

(** ** The wire format *)

Lemma pack_d_slice (data : list float) (i : nat) (x : float) :
  data !! i = Some x ->
  slice (struct.pack_d data) (8 * Z.of_nat i) (8 * Z.of_nat i + 8) = le_split 8 x.
Proof.
  revert i. induction data as [|y data IH]; intros i Hi; [discriminate|].
  unfold struct.pack_d. cbn [flat_map]. fold (struct.pack_d data).
  unfold slice. replace (Z.to_nat (8 * Z.of_nat i + 8 - 8 * Z.of_nat i)) with 8%nat by lia.
  destruct i as [|i].
  - injection Hi as ->. change (Z.to_nat (8 * Z.of_nat 0)) with 0%nat.
    rewrite drop_0. apply take_app_length'. rewrite length_le_split. reflexivity.
  - cbn in Hi. specialize (IH i Hi). unfold slice in IH.
    replace (Z.to_nat (8 * Z.of_nat i + 8 - 8 * Z.of_nat i)) with 8%nat in IH by lia.
    rewrite <- IH.
    replace (Z.to_nat (8 * Z.of_nat (S i)))
      with (length (le_split 8 y) + Z.to_nat (8 * Z.of_nat i))%nat
      by (rewrite length_le_split; lia).
    rewrite <- drop_drop, drop_app_length. reflexivity.
Qed.

(** X25.  The layout of a frame: the four header fields at offsets 0, 4, 8
    and 12 hold 1, [8 * len(values)], the checksum and the marshaller's
    topology id as little-endian 32-bit integers, and the [i]-th value is
    the eight bytes at offset [16 + 8 * i], little-endian. *)
Theorem X25_frame_layout (self : PythonMarshaller.t) (data : list float) (frame : bytes) :
  outcome (PythonMarshaller.marshal_data self data) = Ok frame ->
  slice frame 0 4 = le_split 4 1
  /\ slice frame 4 8 = le_split 4 (8 * len data)
  /\ slice frame 8 12 = le_split 4 (PythonMarshaller._compute_checksum data)
  /\ slice frame 12 16 = le_split 4 (PythonMarshaller.topology_id self)
  /\ forall (i : nat) (x : float),
      data !! i = Some x ->
      slice frame (16 + 8 * Z.of_nat i) (16 + 8 * Z.of_nat i + 8) = le_split 8 x.
Proof.
  intros Hm. destruct (marshal_data_frame self _ _ Hm) as (hb & Hb & H16 & -> & _).
  pose proof (from_to_bytes _ _ [] Hb) as Hf. rewrite app_nil_r in Hf.
  pose proof (to_from_bytes _ _ Hf) as Hback.
  assert (Hl : len hb = 16) by (unfold len; rewrite H16; reflexivity).
  rewrite from_bytes_long in Hf by lia. injection Hf as Hv Hp Hc Ht.
  rewrite len_pack_d in Hp.
  rewrite !slice_app_within by lia. rewrite <- Hv, <- Hp, <- Hc, <- Ht.
  rewrite !split_combine_slice by lia.
  split; [reflexivity|]. split; [reflexivity|]. split; [reflexivity|].
  split; [reflexivity|].
  intros i x Hi. rewrite <- (pack_d_slice data i x Hi).
  unfold slice.
  replace (Z.to_nat (16 + 8 * Z.of_nat i))
    with (length hb + Z.to_nat (8 * Z.of_nat i))%nat by lia.
  rewrite <- drop_drop, drop_app_length. f_equal. lia.
Qed.

Lemma X25_frame_layout_witness :
  slice (map byte.of_Z
           [1; 0; 0; 0; 8; 0; 0; 0; 108; 60; 57; 110; 1; 0; 0; 0;
            0; 0; 0; 0; 0; 0; 240; 63]) 4 8
  = le_split 4 (8 * len [4607182418800017408]).
Proof.
  destruct (X25_frame_layout first_marshaller [4607182418800017408]
              (map byte.of_Z
                 [1; 0; 0; 0; 8; 0; 0; 0; 108; 60; 57; 110; 1; 0; 0; 0;
                  0; 0; 0; 0; 0; 0; 240; 63])) as (_ & Hsize & _).
  - vm_compute. reflexivity.
  - exact Hsize.
Defined.

(** X26.  A frame determines the values: two lists of float64 values that
    marshal to the same frame, by any two marshallers, are equal. *)
Theorem X26_frames_determine_values (m1 m2 : PythonMarshaller.t)
        (data1 data2 : list float) (frame : bytes) :
  Forall is_float64 data1 -> Forall is_float64 data2 ->
  outcome (PythonMarshaller.marshal_data m1 data1) = Ok frame ->
  outcome (PythonMarshaller.marshal_data m2 data2) = Ok frame ->
  data1 = data2.
Proof.
  intros H1 H2 Hm1 Hm2.
  pose proof (round_trip_frame m1 data1 frame H1 Hm1) as Hu1.
  destruct (marshal_data_frame m2 _ _ Hm2) as (hb & Hb & H16 & -> & _).
  rewrite (unmarshal_data_frame m1 (PythonMarshaller.header_of m2 data2) hb _
             (length data2) Hb) in Hu1;
    [| reflexivity | reflexivity | apply length_pack_d].
  cbn [PythonMarshaller.header_of MarshalHeader.checksum] in Hu1.
  rewrite compute_checksum_prefix, Z.eqb_refl, decode_pack_d in Hu1 by exact H2.
  congruence.
Qed.

Lemma X26_frames_determine_values_witness :
  [4607182418800017408] = [4607182418800017408].
Proof.
  apply (X26_frames_determine_values first_marshaller first_marshaller
           [4607182418800017408] [4607182418800017408]
           (map byte.of_Z
              [1; 0; 0; 0; 8; 0; 0; 0; 108; 60; 57; 110; 1; 0; 0; 0;
               0; 0; 0; 0; 0; 0; 240; 63])).
  - repeat constructor; unfold is_float64; lia.
  - repeat constructor; unfold is_float64; lia.
  - vm_compute. reflexivity.
  - vm_compute. reflexivity.
Defined.
